(** * Store monitoring: uptime estimator and report jobs

    A shallow embedding of [store_monitoring/utils.py],
    [store_monitoring/database.py] and [store_monitoring/report.py].

    Conventions of the embedding.
    - A [datetime] is a count of microseconds (the resolution of Python's
      [datetime]) on the proleptic Gregorian calendar, counted from
      1970-01-01T00:00:00, a Thursday.  A [timedelta] and a [time] of day are
      microsecond counts too.
    - An aware datetime, as pytz hands it out, carries its wall-clock fields
      and the fixed UTC offset of its [tzinfo].
    - The float minute counters are modelled by exact rationals [Q].
    - The PostgreSQL tables are lists of rows in table order; a query without
      ORDER BY yields the matching rows in that order.
    - The bounds of a query window come from [datetime.utcnow()] and are
      naive UTC datetimes.  The column [store_data.timestamp_utc] is
      TIMESTAMPTZ, which psycopg2 reads as timezone-aware datetimes; an aware
      datetime read from the table is written with UTC offset 0.  The year
      range of [datetime] is not modelled.
    - The columns of [store_data] are nullable and COPY reads an empty CSV
      field as NULL: their values are [option]s, [None] for NULL and for
      Python's [None].
    - A Python exception is a value of [exn]; code that may raise returns a
      [result]. *)

From Stdlib Require Import ZArith QArith List String Bool Lia.
From stdpp Require Import base gmap strings list.
Import ListNotations.

Local Open Scope string_scope.
Local Open Scope Z_scope.

(** ** Exceptions and results *)

Inductive exn : Type :=
| UnknownTimeZoneError   (* pytz.timezone on a name it does not know *)
| TypeError              (* an ordering between a time and an int *)
| ValueError             (* utc.localize on a datetime that has a tzinfo *)
| OSError.               (* open() on a path that cannot be created *)

Inductive result (A : Type) : Type :=
| Ok (a : A)
| Raise (e : exn).
Arguments Ok {A} a.
Arguments Raise {A} e.

Definition rbind {A B : Type} (r : result A) (k : A -> result B) : result B :=
  match r with
  | Ok a => k a
  | Raise e => Raise e
  end.

Notation "'try' x <- r 'in' k" := (rbind r (fun x => k))
  (at level 10, x pattern, r at level 100, k at level 200).

(** A [for] loop whose body may raise: the first exception ends the loop. *)
Fixpoint for_each {A S : Type} (body : S -> A -> result S) (xs : list A) (s : S)
  : result S :=
  match xs with
  | [] => Ok s
  | x :: rest => try s' <- body s x in for_each body rest s'
  end.

(** ** datetime, timedelta, time *)

Definition US_PER_SECOND : Z := 1000000.
Definition US_PER_HOUR : Z := 3600 * US_PER_SECOND.
Definition US_PER_DAY : Z := 24 * US_PER_HOUR.

Definition timedelta_hours (h : Z) : Z := h * US_PER_HOUR.
Definition timedelta_weeks (w : Z) : Z := w * 7 * US_PER_DAY.
Definition timedelta_days (d : Z) : Z := d * US_PER_DAY.

(** [time(h, m, s)] *)
Definition time_hms (h m s : Z) : Z := ((h * 60 + m) * 60 + s) * US_PER_SECOND.

(** [td.total_seconds()] *)
Definition total_seconds (td : Z) : Q := inject_Z td / inject_Z US_PER_SECOND.

(** An aware datetime: wall-clock fields and the offset of its tzinfo. *)
Record datetime : Type := mk_datetime {
  dt_wall : Z;
  dt_utcoffset : Z
}.

Definition dt_utc (d : datetime) : Z := dt_wall d - dt_utcoffset d.

(** [d + delta]: the wall clock moves, the tzinfo stays (pytz does not
    normalise). *)
Definition dt_add (d : datetime) (delta : Z) : datetime :=
  mk_datetime (dt_wall d + delta) (dt_utcoffset d).

(** Comparison and difference of aware datetimes.  Python uses the naive
    fields when both operands share their tzinfo and the UTC instants
    otherwise; operands sharing a tzinfo have one offset, so both cases are
    the comparison (difference) of the UTC instants. *)
Definition dt_lt (a b : datetime) : bool := dt_utc a <? dt_utc b.
Definition dt_ge (a b : datetime) : bool := dt_utc b <=? dt_utc a.
Definition dt_sub (a b : datetime) : Z := dt_utc a - dt_utc b.

(** [max(a, b)]: [b] when [a < b], else its first argument. *)
Definition dt_max (a b : datetime) : datetime := if dt_lt a b then b else a.

(** [d.time()] and [d.weekday()] read the wall clock; Monday is 0. *)
Definition dt_time (d : datetime) : Z := dt_wall d mod US_PER_DAY.
Definition dt_weekday (d : datetime) : Z := (dt_wall d / US_PER_DAY + 3) mod 7.

(** A Python [datetime] object: naive, with its fields only, or aware. *)
Inductive py_datetime : Type :=
| NaiveDatetime (fields : Z)
| AwareDatetime (d : datetime).

(** ** Python values held by the business-hours dictionary

    A row of [menu_hours] mixes integers and times, and so do the tuples
    built from its columns. *)

Inductive pyval : Type :=
| PyInt (n : Z)
| PyTime (t : Z).

(** [t < v] and [t > v] for a [datetime.time] [t]: an int on the other side
    raises TypeError. *)
Definition time_lt (t : Z) (v : pyval) : result bool :=
  match v with
  | PyTime u => Ok (t <? u)
  | PyInt _ => Raise TypeError
  end.

Definition time_gt (t : Z) (v : pyval) : result bool :=
  match v with
  | PyTime u => Ok (u <? t)
  | PyInt _ => Raise TypeError
  end.

(** ** utils.py *)

Module Utils.
Section WithPytz.

(** The timezone database: [pytz.timezone(name)] either raises
    UnknownTimeZoneError ([None]) or gives the zone, which maps a UTC
    instant to the offset in force at that instant. *)
Variable pytz_timezone : string -> option (Z -> Z).

(** [pytz.timezone(timezone_str)] comes first; then [utc.localize] raises
    ValueError ("Not naive datetime (tzinfo is already set)") on an aware
    datetime, and [astimezone] moves a naive one into the zone. *)
Definition convert_utc_to_local (utc_timestamp : py_datetime) (timezone_str : string)
  : result datetime :=
  match pytz_timezone timezone_str with
  | None => Raise UnknownTimeZoneError
  | Some local_tz =>
      match utc_timestamp with
      | AwareDatetime _ => Raise ValueError
      | NaiveDatetime utc_fields =>
          let off := local_tz utc_fields in
          Ok (mk_datetime (utc_fields + off) off)
      end
  end.

End WithPytz.

(** The generator [time_range]: [while start_time < end_time: yield
    start_time; start_time += step], unrolled at most [fuel] times. *)
Fixpoint time_range_loop (fuel : nat) (start_time end_time : datetime) (step : Z)
  : list datetime :=
  match fuel with
  | O => []
  | S fuel' =>
      if dt_lt start_time end_time
      then start_time :: time_range_loop fuel' (dt_add start_time step) end_time step
      else []
  end.

(** Fuel that a positive step never uses up (see [time_range_fuel_enough]). *)
Definition time_range_fuel (start_time end_time : datetime) (step : Z) : nat :=
  Z.to_nat ((dt_utc end_time - dt_utc start_time) / step + 1).

Definition time_range (start_time end_time : datetime) (step : Z) : list datetime :=
  time_range_loop (time_range_fuel start_time end_time step) start_time end_time step.

(** [d.replace(second=0, microsecond=0)] on a naive datetime: back to the
    start of its minute. *)
Definition replace_second_microsecond (d : Z) : Z := d - d mod (60 * US_PER_SECOND).

(** [d.replace(hour=0, minute=0, second=0, microsecond=0)]: back to the
    midnight of its day. *)
Definition replace_hour_minute_second_microsecond (d : Z) : Z := d - d mod US_PER_DAY.

(** The three window helpers; [utcnow] is the reading of [datetime.utcnow()]
    each of them takes. *)
Definition get_previous_hour_times (utcnow : Z) : Z * Z :=
  let end_time := replace_second_microsecond utcnow in
  let start_time := end_time - timedelta_hours 1 in
  (start_time, end_time).

Definition get_previous_day_times (utcnow : Z) : Z * Z :=
  let end_time := replace_hour_minute_second_microsecond utcnow in
  let start_time := end_time - timedelta_days 1 in
  (start_time, end_time).

Definition get_previous_week_times (utcnow : Z) : Z * Z :=
  let end_time := replace_hour_minute_second_microsecond utcnow in
  let start_time := end_time - timedelta_weeks 1 in
  (start_time, end_time).

End Utils.

(** ** database.py *)

Module Database.

(** The four tables of [create_db], columns in the order of their
    CREATE TABLE statements. *)
Record store_data_row : Type := mk_store_data {
  sd_store_id : option Z;
  sd_status : option string;
  sd_timestamp_utc : option Z          (* the instant, in UTC microseconds *)
}.

Record menu_hours_row : Type := mk_menu_hours {
  mh_store_id : Z;
  mh_dayofweek : Z;
  mh_start_time_local : Z;
  mh_end_time_local : Z
}.

Record store_tz_row : Type := mk_store_tz {
  tz_store_id : Z;
  tz_timezone : string
}.

Record reports_row : Type := mk_reports {
  rp_report_id : string;
  rp_status : string
}.

Record database : Type := mk_database {
  store_data : list store_data_row;
  menu_hours : list menu_hours_row;
  store_tz : list store_tz_row;
  reports : list reports_row
}.

(** [SELECT store_id FROM menu_hours]: one id per schedule row. *)
Definition fetch_store_ids (conn : database) : list Z :=
  map mh_store_id (menu_hours conn).

(** The tuple [SELECT * FROM menu_hours] yields for a row is
    (store_id, dayofweek, start_time_local, end_time_local); the loop of
    [fetch_store_hours] reads its items 0, 1 and 2. *)
Definition row_0 (row : menu_hours_row) : Z := mh_store_id row.
Definition row_1 (row : menu_hours_row) : pyval := PyInt (mh_dayofweek row).
Definition row_2 (row : menu_hours_row) : pyval := PyTime (mh_start_time_local row).

(** [hours = {}; for row in rows: hours[row[0]] = (row[1], row[2])] *)
Definition fetch_store_hours (conn : database) (store_id : Z)
  : gmap Z (pyval * pyval) :=
  let rows := filter (fun row => mh_store_id row = store_id) (menu_hours conn) in
  foldl (fun hours row => <[ row_0 row := (row_1 row, row_2 row) ]> hours) ∅ rows.

Definition fetch_store_timezone (conn : database) (store_id : Z) : string :=
  match filter (fun row => tz_store_id row = store_id) (store_tz conn) with
  | row :: _ => tz_timezone row
  | [] => "America/Chicago"
  end.

(** [WHERE store_id = %s AND timestamp_utc >= %s AND timestamp_utc < %s] on
    one row: a comparison with NULL is not true.  A selected row is handed
    over as the pair of its aware timestamp and its status. *)
Definition select_store_data (store_id start_time end_time : Z)
    (row : store_data_row) : option (py_datetime * option string) :=
  match sd_store_id row, sd_timestamp_utc row with
  | Some id, Some ts =>
      if (id =? store_id) && (start_time <=? ts) && (ts <? end_time)
      then Some (AwareDatetime (mk_datetime ts 0), sd_status row)
      else None
  | _, _ => None
  end.

(** Rows of the store with [start_time <= timestamp_utc < end_time], as
    (timestamp_utc, status) pairs. *)
Definition fetch_store_data (conn : database) (store_id start_time end_time : Z)
  : list (py_datetime * option string) :=
  omap (select_store_data store_id start_time end_time) (store_data conn).

(** The dictionary [calculate_uptime_downtime] returns. *)
Record report_row : Type := mk_report_row {
  store_id : Z;
  uptime_last_hour : Q;
  downtime_last_hour : Q;
  uptime_last_day : Q;
  downtime_last_day : Q;
  uptime_last_week : Q;
  downtime_last_week : Q
}.

(** The six counters of the hour loop. *)
Record counters : Type := mk_counters {
  uptime_minutes_hour : Q;
  downtime_minutes_hour : Q;
  uptime_minutes_day : Q;
  downtime_minutes_day : Q;
  uptime_minutes_week : Q;
  downtime_minutes_week : Q
}.

Definition delta : Z := timedelta_hours 1.

(** [try: ... = hours[hour_dow] except KeyError: time(0, 0), time(23, 59, 59)] *)
Definition business_hours (hours : gmap Z (pyval * pyval)) (hour_dow : Z)
  : pyval * pyval :=
  match hours !! hour_dow with
  | Some entry => entry
  | None => (PyTime (time_hms 0 0 0), PyTime (time_hms 23 59 59))
  end.

(** The test that guards the body of an hour; [and] evaluates its right
    operand only when the left one holds. *)
Definition within_business_hours (hours : gmap Z (pyval * pyval))
    (hour_start_time : datetime) : result bool :=
  let hour_end_time := dt_add hour_start_time delta in
  let hour_dow := dt_weekday hour_start_time in
  let '(hour_business_start_time, hour_business_end_time) :=
    business_hours hours hour_dow in
  try before_close <- time_lt (dt_time hour_start_time) hour_business_end_time in
  if (before_close : bool)
  then time_gt (dt_time hour_end_time) hour_business_start_time
  else Ok false.

(** [(data_local_timestamp + delta - max(data_local_timestamp,
    hour_start_time)).total_seconds() / 60] *)
Definition span_minutes (data_local_timestamp hour_start_time : datetime) : Q :=
  total_seconds
    (dt_sub (dt_add data_local_timestamp delta)
            (dt_max data_local_timestamp hour_start_time)) / 60.

(** The window [09:00:00 <= t < 21:00:00] of the day counters. *)
Definition in_day_window (hour_start_time : datetime) : bool :=
  (time_hms 9 0 0 <=? dt_time hour_start_time)
  && (dt_time hour_start_time <? time_hms 21 0 0).

(** [data_status == literal]; [None] equals no string. *)
Definition status_is (data_status : option string) (literal : string) : bool :=
  match data_status with
  | Some status => String.eqb status literal
  | None => false
  end.

Section WithPytz.

Variable pytz_timezone : string -> option (Z -> Z).

(** One turn of [for data_timestamp_utc, data_status in store_data]: the
    timestamp is localised before anything else is looked at. *)
Definition apportion (store_timezone : string) (hour_start_time : datetime)
    (acc : Q * Q) (data : py_datetime * option string) : result (Q * Q) :=
  let hour_end_time := dt_add hour_start_time delta in
  let '(hour_uptime, hour_downtime) := acc in
  let '(data_timestamp_utc, data_status) := data in
  try data_local_timestamp <-
    Utils.convert_utc_to_local pytz_timezone data_timestamp_utc store_timezone in
  if dt_ge data_local_timestamp hour_start_time
     && dt_lt data_local_timestamp hour_end_time
  then
    if status_is data_status "active"
    then Ok ((hour_uptime + span_minutes data_local_timestamp hour_start_time)%Q,
             hour_downtime)
    else if status_is data_status "inactive"
    then Ok (hour_uptime,
             (hour_downtime + span_minutes data_local_timestamp hour_start_time)%Q)
    else Ok acc
  else Ok acc.

(** [hour_uptime] and [hour_downtime] of one hour of the walk. *)
Definition hour_totals (store_timezone : string)
    (store_data : list (py_datetime * option string))
    (hours : gmap Z (pyval * pyval)) (hour_start_time : datetime)
  : result (bool * (Q * Q)) :=
  try open <- within_business_hours hours hour_start_time in
  if (open : bool)
  then try totals <- for_each (apportion store_timezone hour_start_time)
                       store_data (0%Q, 0%Q) in
       Ok (true, totals)
  else Ok (false, (0%Q, 0%Q)).

(** One turn of [for hour_start_time in time_range(...)]. *)
Definition hour_step (store_timezone : string)
    (store_data : list (py_datetime * option string))
    (hours : gmap Z (pyval * pyval)) (c : counters) (hour_start_time : datetime)
  : result counters :=
  try ht <- hour_totals store_timezone store_data hours hour_start_time in
  let '(open, (hour_uptime, hour_downtime)) := ht in
  let c1 :=
    if (open : bool) then
      let c0 :=
        if in_day_window hour_start_time
        then mk_counters (uptime_minutes_hour c) (downtime_minutes_hour c)
               (uptime_minutes_day c + hour_uptime)
               (downtime_minutes_day c + hour_downtime)
               (uptime_minutes_week c) (downtime_minutes_week c)
        else c in
      mk_counters (uptime_minutes_hour c0) (downtime_minutes_hour c0)
        (uptime_minutes_day c0) (downtime_minutes_day c0)
        (uptime_minutes_week c0 + hour_uptime)
        (downtime_minutes_week c0 + hour_downtime)
    else c in
  Ok (mk_counters (uptime_minutes_hour c1 + hour_uptime)
        (downtime_minutes_hour c1 + hour_downtime)
        (uptime_minutes_day c1) (downtime_minutes_day c1)
        (uptime_minutes_week c1) (downtime_minutes_week c1))%Q.

Definition calculate_uptime_downtime (conn : database) (store_id : Z)
    (start_time end_time : Z) : result report_row :=
  let store_timezone := fetch_store_timezone conn store_id in
  let store_data := fetch_store_data conn store_id start_time end_time in
  let hours := fetch_store_hours conn store_id in
  try local_start_time <-
    Utils.convert_utc_to_local pytz_timezone (NaiveDatetime start_time)
      store_timezone in
  try local_end_time <-
    Utils.convert_utc_to_local pytz_timezone (NaiveDatetime end_time)
      store_timezone in
  try c <- for_each (hour_step store_timezone store_data hours)
             (Utils.time_range local_start_time local_end_time delta)
             (mk_counters 0 0 0 0 0 0) in
  Ok (mk_report_row store_id
        (uptime_minutes_hour c) (downtime_minutes_hour c)
        (uptime_minutes_day c / 60) (downtime_minutes_day c / 60)
        (uptime_minutes_week c / 60) (downtime_minutes_week c / 60))%Q.

End WithPytz.

(** *** Report generation

    [generate_report] reads the clock, writes a file and updates the
    [reports] table: the state it runs in is the [world]. *)

Definition fieldnames : list string :=
  ["store_id"; "uptime_last_hour"; "downtime_last_hour"; "uptime_last_day";
   "downtime_last_day"; "uptime_last_week"; "downtime_last_week"].

(** A CSV file as [csv.DictWriter] fills it: the header and the rows. *)
Definition csv_file : Type := (list string * list report_row)%type.

Record world : Type := mk_world {
  w_conn : database;
  w_files : gmap string csv_file;
  w_ticks : nat                      (* clock readings taken so far *)
}.

(** [UPDATE reports SET status = %s WHERE report_id = %s] *)
Definition update_report_status (status report_id : string)
    (rows : list reports_row) : list reports_row :=
  map (fun row => if String.eqb (rp_report_id row) report_id
                  then mk_reports (rp_report_id row) status
                  else row) rows.

Definition set_reports (conn : database) (rows : list reports_row) : database :=
  mk_database (store_data conn) (menu_hours conn) (store_tz conn) rows.

Section WithEnvironment.

Variable pytz_timezone : string -> option (Z -> Z).
(** The [k]-th reading of the clock, by [datetime.utcnow()] or
    [datetime.now()], as a UTC instant. *)
Variable clock : nat -> Z.
(** [datetime.now().strftime('%Y%m%d_%H%M%S')] at an instant. *)
Variable strftime : Z -> string.
(** Whether [open(path, "w")] succeeds. *)
Variable can_open : string -> bool.

(** [for store_id in stores: report_data.append(calculate_uptime_downtime(
    conn, store_id, datetime.utcnow() - timedelta(weeks=1),
    datetime.utcnow()))]: two clock readings per store; an exception leaves
    the loop and the function. *)
Fixpoint report_loop (conn : database) (stores : list Z) (ticks : nat)
    (report_data : list report_row) : result (list report_row) * nat :=
  match stores with
  | [] => (Ok report_data, ticks)
  | store_id :: rest =>
      let start_time := clock ticks - timedelta_weeks 1 in
      let end_time := clock (S ticks) in
      match calculate_uptime_downtime pytz_timezone conn store_id
              start_time end_time with
      | Ok row => report_loop conn rest (S (S ticks)) (report_data ++ [row])
      | Raise e => (Raise e, S (S ticks))
      end
  end.

Definition generate_report (w : world) (report_id : string)
  : result unit * world :=
  let conn := w_conn w in
  let stores := fetch_store_ids conn in
  match report_loop conn stores (w_ticks w) [] with
  | (Raise e, ticks) => (Raise e, mk_world conn (w_files w) ticks)
  | (Ok report_data, ticks) =>
      let report_name :=
        "reports/" ++ ("report_" ++ strftime (clock ticks) ++ ".csv") in
      if can_open report_name
      then
        let files := <[ report_name := (fieldnames, report_data) ]> (w_files w) in
        let conn' :=
          set_reports conn
            (update_report_status report_name report_id (reports conn)) in
        (Ok tt, mk_world conn' files (S ticks))
      else (Raise OSError, mk_world conn (w_files w) (S ticks))
  end.

End WithEnvironment.

(** *** Loading the CSV files

    The content of a CSV file is the list of its rows; [None] stands for a
    file that [open] cannot open, whose exception the [except] clause logs. *)

(** The SQL comparison [a = b] as a WHERE clause reads it: true only when
    both sides are not NULL and equal. *)
Definition sql_eq_int (a b : option Z) : bool :=
  match a, b with
  | Some x, Some y => x =? y
  | _, _ => false
  end.

Definition sql_eq_text (a b : option string) : bool :=
  match a, b with
  | Some x, Some y => String.eqb x y
  | _, _ => false
  end.

(** [store_data.store_id = tmp.store_id AND store_data.timestamp_utc =
    tmp.timestamp_utc AND store_data.status = tmp.status] *)
Definition same_observation (stored tmp : store_data_row) : bool :=
  sql_eq_int (sd_store_id stored) (sd_store_id tmp)
  && sql_eq_int (sd_timestamp_utc stored) (sd_timestamp_utc tmp)
  && sql_eq_text (sd_status stored) (sd_status tmp).

(** [EXISTS (SELECT 1 FROM store_data WHERE ...)] *)
Definition already_stored (table : list store_data_row) (tmp : store_data_row) : bool :=
  existsb (fun stored => same_observation stored tmp) table.

(** [update_db]: the rows of "store status.csv" go to a temporary table, and
    those of them that [store_data] does not hold yet are inserted; the
    sub-query reads [store_data] as it was before the statement. *)
Definition update_db (store_status_csv : option (list store_data_row))
    (conn : database) : database :=
  match store_status_csv with
  | None => conn
  | Some tmp_store_data =>
      let inserted :=
        filter (fun tmp => already_stored (store_data conn) tmp = false)
          tmp_store_data in
      mk_database (store_data conn ++ inserted) (menu_hours conn) (store_tz conn)
        (reports conn)
  end.

(** [cur.fetchone()] after [SELECT CASE WHEN EXISTS (SELECT * FROM table
    LIMIT 1) THEN 1 ELSE 0 END]: the one-column row (1,) or (0,). *)
Definition fetchone_exists {A : Type} (table : list A) : list Z :=
  match table with
  | [] => [0]
  | _ :: _ => [1]
  end.

(** The truth value Python gives a tuple: false only when it is empty. *)
Definition tuple_truth (t : list Z) : bool :=
  match t with
  | [] => false
  | _ :: _ => true
  end.

(** [init_db], after [create_db]; the three files are "Menu hours.csv",
    "bq.csv" and "store status.csv". *)
Definition init_db (menu_hours_csv : option (list menu_hours_row))
    (bq_csv : option (list store_tz_row))
    (store_status_csv : option (list store_data_row))
    (conn : database) : database :=
  let menu_hour_exists := fetchone_exists (menu_hours conn) in
  let store_tz_exists := fetchone_exists (store_tz conn) in
  let store_data_exists := fetchone_exists (store_data conn) in
  if tuple_truth menu_hour_exists && tuple_truth store_tz_exists
     && tuple_truth store_data_exists
  then conn
  else
    let after_menu_hours :=
      if negb (tuple_truth menu_hour_exists)
      then option_map
             (fun rows => mk_database (store_data conn) (menu_hours conn ++ rows)
                            (store_tz conn) (reports conn))
             menu_hours_csv
      else Some conn in
    match after_menu_hours with
    | None => conn
    | Some conn1 =>
        let after_store_tz :=
          if negb (tuple_truth store_tz_exists)
          then option_map
                 (fun rows => mk_database (store_data conn1) (menu_hours conn1)
                                (store_tz conn1 ++ rows) (reports conn1))
                 bq_csv
          else Some conn1 in
        match after_store_tz with
        | None => conn1
        | Some conn2 =>
            if negb (tuple_truth store_data_exists)
            then update_db store_status_csv conn2
            else conn2
        end
    end.

End Database.

(** ** report.py *)

Module Report.

Import Database.

(** [SELECT "status" FROM reports WHERE report_id = %s], then [rows[0][0]],
    or [None] without rows. *)
Definition get_report_status (conn : database) (report_id : string)
  : option string :=
  match filter (fun row => rp_report_id row = report_id) (reports conn) with
  | [] => None
  | row :: _ => Some (rp_status row)
  end.

Section WithEnvironment.

Variable pytz_timezone : string -> option (Z -> Z).
Variable clock : nat -> Z.
Variable strftime : Z -> string.
Variable can_open : string -> bool.

(** [INSERT INTO reports (report_id, status) VALUES (%s, 'Running')],
    commit, then [generate_report_db(conn, report_id)]. *)
Definition generate_report (w : world) (report_id : string)
  : result unit * world :=
  let conn := w_conn w in
  let conn' := set_reports conn (reports conn ++ [mk_reports report_id "Running"]) in
  Database.generate_report pytz_timezone clock strftime can_open
    (mk_world conn' (w_files w) (w_ticks w)) report_id.

End WithEnvironment.

End Report.

(** ** routes.py *)

Module Routes.

Inductive response : Type :=
| NotFound                  (* ("Report not found", 404) *)
| Running                   (* "Running" *)
| FileResponse (path : string).

(** [get_report]: what a caller polling a job id is answered. *)
Definition get_report (conn : Database.database) (report_id : string) : response :=
  match Report.get_report_status conn report_id with
  | None => NotFound
  | Some status =>
      if String.eqb status "" then NotFound
      else if String.eqb status "Running" then Running
      else FileResponse status
  end.

End Routes.

(** ** The system over time

    What can happen to the world between two polls of a job: another job is
    triggered, under an id the [reports] table does not hold yet
    ([trigger_report] draws [str(uuid4())]), or the data tables change
    ([update_db], [init_db]); nothing else writes to [reports]. *)

Section Lifecycle.

Variable pytz_timezone : string -> option (Z -> Z).
Variable clock : nat -> Z.
Variable strftime : Z -> string.
Variable can_open : string -> bool.

Inductive step : Database.world -> Database.world -> Prop :=
| step_trigger (w : Database.world) (report_id : string) :
    Report.get_report_status (Database.w_conn w) report_id = None ->
    step w (snd (Report.generate_report pytz_timezone clock strftime can_open
                   w report_id))
| step_data (w : Database.world) (conn' : Database.database) :
    Database.reports conn' = Database.reports (Database.w_conn w) ->
    step w (Database.mk_world conn' (Database.w_files w) (Database.w_ticks w)).

Definition steps : Database.world -> Database.world -> Prop := rtc step.

End Lifecycle.

(** ** Notions used in the statements *)

(** A row with the six outputs [a] .. [f], up to equality of rationals. *)
Definition row_is (r : Database.report_row) (sid : Z) (a b c d e f : Q) : Prop :=
  Database.store_id r = sid
  /\ (Database.uptime_last_hour r == a)%Q /\ (Database.downtime_last_hour r == b)%Q
  /\ (Database.uptime_last_day r == c)%Q /\ (Database.downtime_last_day r == d)%Q
  /\ (Database.uptime_last_week r == e)%Q /\ (Database.downtime_last_week r == f)%Q.

Definition returns_row (res : result Database.report_row) (sid : Z)
    (a b c d e f : Q) : Prop :=
  match res with
  | Ok r => row_is r sid a b c d e f
  | Raise _ => False
  end.


Definition all_zero (c : Database.counters) : Prop :=
  (Database.uptime_minutes_hour c == 0)%Q /\ (Database.downtime_minutes_hour c == 0)%Q
  /\ (Database.uptime_minutes_day c == 0)%Q /\ (Database.downtime_minutes_day c == 0)%Q
  /\ (Database.uptime_minutes_week c == 0)%Q /\ (Database.downtime_minutes_week c == 0)%Q.

(** The name [generate_report] gives the report file when the clock reads
    [now]: [join("reports", f"report_{now:%Y%m%d_%H%M%S}.csv")]. *)
Definition report_path (strftime : Z -> string) (now : Z) : string :=
  "reports/" ++ ("report_" ++ strftime now ++ ".csv").

(** The observations handed over by [fetch_store_data] are aware datetimes. *)
Definition aware (data : py_datetime * option string) : Prop :=
  match fst data with
  | AwareDatetime _ => True
  | NaiveDatetime _ => False
  end.

(** The exception [convert_utc_to_local] ends with on an aware datetime. *)
Definition localize_error (pytz_timezone : string -> option (Z -> Z))
    (timezone_str : string) : exn :=
  match pytz_timezone timezone_str with
  | Some _ => ValueError
  | None => UnknownTimeZoneError
  end.

(** A row of [store_data] without NULL. *)
Definition no_null (row : Database.store_data_row) : bool :=
  match Database.sd_store_id row, Database.sd_status row,
        Database.sd_timestamp_utc row with
  | Some _, Some _, Some _ => true
  | _, _, _ => false
  end.

(** ** Concrete stores used to run the code *)

Module Examples.

Import Database.

(** A timezone database that knows "UTC" only. *)
Definition utc_zone (_ : Z) : Z := 0.

Definition pytz_utc (name : string) : option (Z -> Z) :=
  if String.eqb name "UTC" then Some utc_zone else None.

(** A row of [store_data] without NULL. *)
Definition observation (sid : Z) (status : string) (ts : Z) : store_data_row :=
  mk_store_data (Some sid) (Some status) (Some ts).

(** Monday 00:00:00 of week [k]; week 0 starts on 1970-01-05. *)
Definition monday (k : Z) : Z := (7 * k + 4) * US_PER_DAY.

(** The naive UTC datetime on [day] at [h]:[m]:[s]. *)
Definition at_time (day h m s : Z) : Z := day + time_hms h m s.

(** Store [sid] of the scenario: timezone UTC, business hours Monday
    09:00-17:00 only, one "active" observation on the Monday of week [k] at
    09:00 UTC. *)
Definition scenario_db (sid k : Z) : database :=
  mk_database
    [observation sid "active" (at_time (monday k) 9 0 0)]
    [mk_menu_hours sid 0 (time_hms 9 0 0) (time_hms 17 0 0)]
    [mk_store_tz sid "UTC"]
    [].

(** Store 100 with the same schedule and an "active" observation on Monday
    at 20:00 UTC, after closing time. *)
Definition evening_db : database :=
  mk_database
    [observation 100 "active" (at_time (monday 0) 20 0 0)]
    [mk_menu_hours 100 0 (time_hms 9 0 0) (time_hms 17 0 0)]
    [mk_store_tz 100 "UTC"]
    [].

(** Store 100 with a schedule row for Tuesday only and an "active"
    observation on Monday at 23:10 UTC. *)
Definition tuesday_only_db : database :=
  mk_database
    [observation 100 "active" (at_time (monday 0) 23 10 0)]
    [mk_menu_hours 100 1 (time_hms 9 0 0) (time_hms 17 0 0)]
    [mk_store_tz 100 "UTC"]
    [].


(** Stores 300 and 100, both in UTC: 300 has no observation, 100 has one on
    the Monday of week 1 at 09:00 UTC. *)
Definition quiet_store_db : database :=
  mk_database
    [observation 100 "active" (at_time (monday 1) 9 0 0)]
    [mk_menu_hours 300 2 (time_hms 8 0 0) (time_hms 12 0 0);
     mk_menu_hours 100 0 (time_hms 9 0 0) (time_hms 17 0 0)]
    [mk_store_tz 100 "UTC"; mk_store_tz 300 "UTC"]
    [].

(** Stores 300 and 500, both in UTC, with no observation since the Monday
    of week -3. *)
Definition silent_db : database :=
  mk_database
    [observation 300 "active" (at_time (monday (-3)) 9 0 0)]
    [mk_menu_hours 300 2 (time_hms 8 0 0) (time_hms 12 0 0);
     mk_menu_hours 500 0 (time_hms 9 0 0) (time_hms 17 0 0)]
    [mk_store_tz 300 "UTC"; mk_store_tz 500 "UTC"]
    [].

(** A clock that advances one second per reading, starting on the Monday of
    week 1 at 10:00:00 UTC. *)
Definition clock (k : nat) : Z :=
  at_time (monday 1) 10 0 0 + Z.of_nat k * US_PER_SECOND.

Definition strftime (_ : Z) : string := "19700112_100000".

Definition can_open (_ : string) : bool := true.

Definition world_of (conn : database) : world := mk_world conn ∅ 0.

(** A zone that is six hours behind UTC before the instant [shift_at] and
    five hours behind from then on, and a timezone database that knows it
    next to "UTC". *)
Definition shift_at : Z := at_time (monday 1) 8 0 0.

Definition shift_zone (utc : Z) : Z :=
  if utc <? shift_at then timedelta_hours (-6) else timedelta_hours (-5).

Definition pytz_shift (name : string) : option (Z -> Z) :=
  if String.eqb name "Example/Shift" then Some shift_zone else pytz_utc name.

(** Store 100 with three observations on the Monday of week 0, and the same
    store with the rows of [store_data] in another order. *)
Definition busy_db : database :=
  mk_database
    [observation 100 "active" (at_time (monday 0) 9 10 0);
     observation 100 "inactive" (at_time (monday 0) 9 40 0);
     observation 100 "active" (at_time (monday 0) 10 5 0)]
    [mk_menu_hours 100 0 (time_hms 9 0 0) (time_hms 17 0 0)]
    [mk_store_tz 100 "UTC"]
    [].

(** [evening_db] with another schedule for store 100: Monday from 21:00 to
    22:00, and a row for Tuesday. *)
Definition evening_db_other_schedule : database :=
  mk_database
    [observation 100 "active" (at_time (monday 0) 20 0 0)]
    [mk_menu_hours 100 0 (time_hms 21 0 0) (time_hms 22 0 0);
     mk_menu_hours 100 1 (time_hms 8 0 0) (time_hms 12 0 0)]
    [mk_store_tz 100 "UTC"]
    [].

(** No path can be opened for writing. *)
Definition cannot_open (_ : string) : bool := false.

Definition busy_db_shuffled : database :=
  mk_database
    [observation 100 "active" (at_time (monday 0) 10 5 0);
     observation 100 "active" (at_time (monday 0) 9 10 0);
     observation 100 "inactive" (at_time (monday 0) 9 40 0)]
    [mk_menu_hours 100 0 (time_hms 9 0 0) (time_hms 17 0 0)]
    [mk_store_tz 100 "UTC"]
    [].

End Examples.

(** * Properties *)

Import Database.

(** ** The hour walk terminates *)

(** ** The hour walk terminates *)
Lemma time_range_loop_enough (step : Z) (end_time : datetime) :
  0 < step ->
  forall (fuel : nat) (start_time : datetime),
    dt_utc end_time - dt_utc start_time < Z.of_nat fuel * step ->
    forall extra : nat,
      Utils.time_range_loop (fuel + extra) start_time end_time step
      = Utils.time_range_loop fuel start_time end_time step.
Proof.
  intros Hstep fuel.
  induction fuel as [|fuel IH]; intros start_time Hfuel extra.
  - destruct extra as [|extra]; [reflexivity|].
    cbn [Nat.add Utils.time_range_loop].
    unfold dt_lt. destruct (Z.ltb_spec (dt_utc start_time) (dt_utc end_time)); [lia|reflexivity].
  - cbn [Nat.add Utils.time_range_loop].
    destruct (dt_lt start_time end_time); [|reflexivity].
    f_equal. apply IH. unfold dt_add, dt_utc in *. cbn [dt_wall dt_utcoffset]. lia.
Qed.

(** With a positive step the loop leaves through its condition: more fuel
    than [time_range] hands it changes nothing. *)
Lemma time_range_fuel_enough (start_time end_time : datetime) (step : Z) (extra : nat) :
  0 < step ->
  Utils.time_range_loop (Utils.time_range_fuel start_time end_time step + extra)
    start_time end_time step
  = Utils.time_range start_time end_time step.
Proof.
  intros Hstep. unfold Utils.time_range.
  apply time_range_loop_enough; [exact Hstep|].
  unfold Utils.time_range_fuel.
  set (d := dt_utc end_time - dt_utc start_time).
  pose proof (Z.mul_succ_div_gt d step Hstep) as Hgt.
  destruct (Z.le_gt_cases 0 (d / step + 1)) as [Hnn|Hneg].
  - rewrite Z2Nat.id by exact Hnn. lia.
  - replace (Z.to_nat (d / step + 1)) with 0%nat by lia.
    assert (d / step < 0) by lia.
    assert (d < 0); [|lia].
    destruct (Z.lt_ge_cases d 0) as [|Hd]; [assumption|].
    pose proof (Z.div_pos d step Hd Hstep). lia.
Qed.

(** No hour is walked when the window is empty. *)
Lemma time_range_nil (start_time end_time : datetime) (step : Z) :
  dt_utc end_time <= dt_utc start_time ->
  Utils.time_range start_time end_time step = [].
Proof.
  intros Hle. unfold Utils.time_range.
  destruct (Utils.time_range_fuel start_time end_time step); [reflexivity|].
  cbn [Utils.time_range_loop]. unfold dt_lt.
  destruct (Z.ltb_spec (dt_utc start_time) (dt_utc end_time)); [lia|reflexivity].
Qed.

(** ** The business-hours dictionary *)

(** ** The business-hours dictionary *)
Lemma weekday_range (d : datetime) : 0 <= dt_weekday d < 7.
Proof. unfold dt_weekday. apply Z.mod_pos_bound. lia. Qed.

Lemma time_range_of_day (d : datetime) : 0 <= dt_time d < US_PER_DAY.
Proof. unfold dt_time. apply Z.mod_pos_bound. reflexivity. Qed.

Lemma hours_loop_other_key (store_id k : Z) (rows : list menu_hours_row)
    (hours : gmap Z (pyval * pyval)) :
  k <> store_id ->
  foldl (fun hours row => <[ row_0 row := (row_1 row, row_2 row) ]> hours) hours
    (filter (fun row => mh_store_id row = store_id) rows) !! k
  = hours !! k.
Proof.
  intros Hk. revert hours.
  induction rows as [|row rows IH]; intros hours; [reflexivity|].
  rewrite filter_cons. destruct (decide (mh_store_id row = store_id)) as [Heq|Hne].
  - cbn [foldl]. rewrite IH. apply lookup_insert_ne. unfold row_0. congruence.
  - apply IH.
Qed.

(** The dictionary holds nothing under a key other than the store id. *)
Lemma fetch_store_hours_other_key (conn : database) (store_id k : Z) :
  k <> store_id -> fetch_store_hours conn store_id !! k = None.
Proof.
  intros Hk. unfold fetch_store_hours.
  rewrite hours_loop_other_key by exact Hk. apply lookup_empty.
Qed.

(** A store id that is no weekday number never meets a dictionary entry. *)
Lemma fetch_store_hours_no_weekday (conn : database) (store_id : Z) (d : datetime) :
  store_id < 0 \/ 6 < store_id ->
  fetch_store_hours conn store_id !! dt_weekday d = None.
Proof.
  intros Hid. apply fetch_store_hours_other_key.
  pose proof (weekday_range d). lia.
Qed.

(** With the fallback pair the guard of an hour cannot raise, and it holds
    unless the hour starts at 23:00:00 sharp or at 23:59:59 or later. *)
Lemma within_fallback (hours : gmap Z (pyval * pyval)) (hour_start_time : datetime) :
  hours !! dt_weekday hour_start_time = None ->
  within_business_hours hours hour_start_time
  = Ok ((dt_time hour_start_time <? time_hms 23 59 59)
        && negb (dt_time hour_start_time =? time_hms 23 0 0)).
Proof.
  intros Hnone. unfold within_business_hours, business_hours.
  rewrite Hnone. cbn [time_lt time_gt rbind].
  destruct (dt_time hour_start_time <? time_hms 23 59 59); [|reflexivity].
  cbn [andb]. f_equal.
  unfold dt_time, dt_add, delta, timedelta_hours. cbn [dt_wall].
  pose proof (time_range_of_day hour_start_time) as Hr. unfold dt_time in Hr.
  set (w := dt_wall hour_start_time) in *.
  assert (Hday : US_PER_DAY = 86400000000) by reflexivity.
  assert (Hhour : US_PER_HOUR = 3600000000) by reflexivity.
  assert (H0 : time_hms 0 0 0 = 0) by reflexivity.
  assert (H23 : time_hms 23 0 0 = 82800000000) by reflexivity.
  rewrite H0, H23, Hday, Hhour in *.
  rewrite <- Zplus_mod_idemp_l.
  destruct (Z.eqb_spec (w mod 86400000000) 82800000000) as [He|Hne].
  - rewrite He. reflexivity.
  - cbn [negb]. apply Z.ltb_lt.
    destruct (Z.lt_ge_cases (w mod 86400000000) 82800000000).
    + rewrite Z.mod_small by lia. lia.
    + replace (w mod 86400000000 + 1 * 3600000000)
        with ((w mod 86400000000 - 82800000000) + 1 * 86400000000) by lia.
      rewrite Z_mod_plus_full. rewrite Z.mod_small by lia. lia.
Qed.

(** Under its own key the dictionary holds the weekday number and the
    opening time of the store's last schedule row. *)
Lemma hours_loop_same_key (store_id : Z) (rows : list menu_hours_row) :
  forall hours : gmap Z (pyval * pyval),
    foldl (fun hours row => <[ row_0 row := (row_1 row, row_2 row) ]> hours) hours
      (filter (fun row => mh_store_id row = store_id) rows) !! store_id
    = match last (filter (fun row => mh_store_id row = store_id) rows) with
      | Some row => Some (row_1 row, row_2 row)
      | None => hours !! store_id
      end.
Proof.
  induction rows as [|row rows IH]; intros hours; [reflexivity|].
  rewrite filter_cons. destruct (decide (mh_store_id row = store_id)) as [Heq|Hne].
  - cbn [foldl]. rewrite IH.
    destruct (filter _ rows) as [|row' rest] eqn:Hrest.
    + cbn [last]. unfold row_0. rewrite Heq. apply lookup_insert_eq.
    + change (last (row :: row' :: rest)) with (last (row' :: rest)).
      destruct (last (row' :: rest)) eqn:Hlast; [reflexivity|].
      apply last_None in Hlast. discriminate.
  - apply IH.
Qed.

Lemma fetch_store_hours_own_key (conn : database) (store_id : Z) :
  fetch_store_hours conn store_id !! store_id
  = match last (filter (fun row => mh_store_id row = store_id) (menu_hours conn)) with
    | Some row => Some (PyInt (mh_dayofweek row), PyTime (mh_start_time_local row))
    | None => None
    end.
Proof.
  unfold fetch_store_hours. rewrite hours_loop_same_key.
  destruct (last _); reflexivity.
Qed.

(** The guard of an hour, read against a dictionary entry that is a pair of
    times (open, close): the test the hour loop is written for. *)
Lemma within_entry (hours : gmap Z (pyval * pyval)) (hour_start_time : datetime)
    (open_local close_local : Z) :
  hours !! dt_weekday hour_start_time = Some (PyTime open_local, PyTime close_local) ->
  within_business_hours hours hour_start_time
  = Ok ((dt_time hour_start_time <? close_local)
        && (open_local <? dt_time (dt_add hour_start_time delta))).
Proof.
  intros Hentry. unfold within_business_hours, business_hours.
  rewrite Hentry. cbn [time_lt time_gt rbind].
  destruct (dt_time hour_start_time <? close_local); reflexivity.
Qed.

(** ** database.py: the estimator *)
Lemma within_raises_type_error (hours : gmap Z (pyval * pyval))
    (hour_start_time : datetime) (e : exn) :
  within_business_hours hours hour_start_time = Raise e -> e = TypeError.
Proof.
  unfold within_business_hours.
  destruct (business_hours hours (dt_weekday hour_start_time)) as [[n|open] [m|close]];
    cbn [time_lt time_gt rbind]; try congruence;
    destruct (dt_time hour_start_time <? close); congruence.
Qed.

(** ** Apportionment within one hour *)


(** An aware timestamp never gets past the localisation: [pytz.timezone]
    raises on an unknown name, [utc.localize] on the timestamp otherwise. *)
Lemma apportion_aware (pytz_timezone : string -> option (Z -> Z))
    (store_timezone : string) (hour_start_time : datetime) (acc : Q * Q)
    (d : datetime) (data_status : option string) :
  apportion pytz_timezone store_timezone hour_start_time acc
    (AwareDatetime d, data_status)
  = Raise (localize_error pytz_timezone store_timezone).
Proof.
  unfold apportion, Utils.convert_utc_to_local, localize_error.
  destruct acc as [u dn]. destruct (pytz_timezone store_timezone); reflexivity.
Qed.

(** The inner loop over a list that starts with an aware timestamp ends at
    its first turn. *)
Lemma apportion_loop_aware (pytz_timezone : string -> option (Z -> Z))
    (store_timezone : string) (hour_start_time : datetime) (acc : Q * Q)
    (data : py_datetime * option string)
    (rest : list (py_datetime * option string)) :
  aware data ->
  for_each (apportion pytz_timezone store_timezone hour_start_time)
    (data :: rest) acc
  = Raise (localize_error pytz_timezone store_timezone).
Proof.
  destruct data as [[fields|d] data_status]; intros Haware; [destruct Haware|].
  cbn [for_each]. rewrite apportion_aware. reflexivity.
Qed.

(** Every observation [fetch_store_data] hands over is aware. *)
Lemma fetch_store_data_aware (conn : database) (store_id start_time end_time : Z) :
  Forall aware (fetch_store_data conn store_id start_time end_time).
Proof.
  unfold fetch_store_data. apply Forall_forall. intros data Hin.
  apply list_elem_of_omap in Hin.
  destruct Hin as (row & _ & Hsel). unfold select_store_data in Hsel.
  destruct (sd_store_id row), (sd_timestamp_utc row); try discriminate.
  destruct (_ && _); [|discriminate]. injection Hsel as <-. exact I.
Qed.

(** ** Invariants of the hour loop *)

(** ** Invariants of the hour loop *)
Lemma for_each_invariant {A S : Type} (body : S -> A -> result S) (P : S -> Prop) :
  (forall s x s', body s x = Ok s' -> P s -> P s') ->
  forall (xs : list A) (s s' : S), for_each body xs s = Ok s' -> P s -> P s'.
Proof.
  intros Hbody xs. induction xs as [|x xs IH]; intros s s' Hrun Hs.
  - cbn in Hrun. congruence.
  - cbn [for_each] in Hrun. destruct (body s x) as [s1|e] eqn:Hstep; cbn [rbind] in Hrun.
    + eapply IH; [exact Hrun|]. eapply Hbody; eassumption.
    + discriminate.
Qed.

Lemma for_each_raises {A S : Type} (body : S -> A -> result S) (E : exn -> Prop) :
  (forall s x e, body s x = Raise e -> E e) ->
  forall (xs : list A) (s : S) (e : exn), for_each body xs s = Raise e -> E e.
Proof.
  intros Hbody xs. induction xs as [|x xs IH]; intros s e Hrun.
  - discriminate.
  - cbn [for_each] in Hrun. destruct (body s x) as [s1|e1] eqn:Hstep; cbn [rbind] in Hrun.
    + eapply IH. exact Hrun.
    + injection Hrun as <-. eapply Hbody. exact Hstep.
Qed.

Lemma for_each_returns {A S : Type} (body : S -> A -> result S) (xs : list A) :
  (forall s x, In x xs -> exists s', body s x = Ok s') ->
  forall s, exists s', for_each body xs s = Ok s'.
Proof.
  induction xs as [|x xs IH]; intros Hbody s.
  - exists s. reflexivity.
  - cbn [for_each]. destruct (Hbody s x (or_introl eq_refl)) as [s1 Hs1].
    rewrite Hs1. cbn [rbind]. apply IH. intros s2 y Hy. apply Hbody. right. exact Hy.
Qed.

(** ** What the schedule table is worth *)
Lemma for_each_ext {A S : Type} (body1 body2 : S -> A -> result S) (xs : list A) :
  (forall s x, In x xs -> body1 s x = body2 s x) ->
  forall s, for_each body1 xs s = for_each body2 xs s.
Proof.
  induction xs as [|x xs IH]; intros Hext s; [reflexivity|].
  cbn [for_each]. rewrite Hext by (left; reflexivity).
  destruct (body2 s x); cbn [rbind]; [|reflexivity].
  apply IH. intros s' y Hy. apply Hext. right. exact Hy.
Qed.

Section HourLoop.

Variable pytz_timezone : string -> option (Z -> Z).
Variable store_timezone : string.
Variable hours : gmap Z (pyval * pyval).



(** Without observations every counter stays 0. *)
Lemma hour_step_all_zero (c c' : counters) (hour_start_time : datetime) :
  hour_step pytz_timezone store_timezone [] hours c hour_start_time = Ok c' ->
  all_zero c -> all_zero c'.
Proof.
  unfold hour_step, hour_totals. intros Hstep (H1 & H2 & H3 & H4 & H5 & H6).
  destruct (within_business_hours hours hour_start_time) as [[|]|e];
    cbn [rbind for_each] in Hstep; [| |discriminate].
  - injection Hstep as <-. unfold all_zero.
    destruct (in_day_window hour_start_time); cbn;
      rewrite ?H1, ?H2, ?H3, ?H4, ?H5, ?H6; repeat split; reflexivity.
  - injection Hstep as <-. unfold all_zero. cbn.
    rewrite ?H1, ?H2, ?H3, ?H4, ?H5, ?H6; repeat split; reflexivity.
Qed.

(** With an observation in the window, a visited hour ends the run with the
    exception of the localisation; any other hour goes as it would without
    observations. *)
Lemma hour_step_aware (store_data : list (py_datetime * option string))
    (c : counters) (hour_start_time : datetime) :
  Forall aware store_data ->
  store_data <> [] ->
  hour_step pytz_timezone store_timezone store_data hours c hour_start_time
  = match within_business_hours hours hour_start_time with
    | Ok true => Raise (localize_error pytz_timezone store_timezone)
    | _ => hour_step pytz_timezone store_timezone [] hours c hour_start_time
    end.
Proof.
  intros Haware Hne. destruct store_data as [|data rest]; [congruence|].
  apply Forall_inv in Haware.
  unfold hour_step, hour_totals.
  destruct (within_business_hours hours hour_start_time) as [[|]|e]; cbn [rbind].
  - rewrite apportion_loop_aware by exact Haware. reflexivity.
  - reflexivity.
  - reflexivity.
Qed.

(** Whatever the window holds, a turn of the hour loop that returns has
    added nothing. *)
Lemma hour_step_keeps_zero (store_data : list (py_datetime * option string))
    (c c' : counters) (hour_start_time : datetime) :
  Forall aware store_data ->
  hour_step pytz_timezone store_timezone store_data hours c hour_start_time = Ok c' ->
  all_zero c -> all_zero c'.
Proof.
  intros Haware Hstep. destruct store_data as [|data rest] eqn:Hdata.
  - eapply hour_step_all_zero. exact Hstep.
  - rewrite hour_step_aware in Hstep by (assumption || congruence).
    destruct (within_business_hours hours hour_start_time) as [[|]|e];
      try discriminate; eapply hour_step_all_zero; exact Hstep.
Qed.

(** Without observations, an hour whose weekday has no dictionary entry
    cannot raise. *)
Lemma hour_step_no_data_returns (c : counters) (hour_start_time : datetime) :
  hours !! dt_weekday hour_start_time = None ->
  exists c', hour_step pytz_timezone store_timezone [] hours c hour_start_time = Ok c'.
Proof.
  intros Hnone. unfold hour_step, hour_totals.
  rewrite within_fallback by exact Hnone. cbn [rbind].
  destruct (_ && _); cbn [for_each rbind]; eexists; reflexivity.
Qed.

End HourLoop.

(** An hour whose guard fails leaves every counter as it was. *)
Lemma skipped_hour_adds_nothing (pytz_timezone : string -> option (Z -> Z))
    (store_timezone : string) (store_data : list (py_datetime * option string))
    (hours : gmap Z (pyval * pyval)) (c : counters) (hour_start_time : datetime) :
  within_business_hours hours hour_start_time = Ok false ->
  exists c',
    hour_step pytz_timezone store_timezone store_data hours c hour_start_time = Ok c'
    /\ (uptime_minutes_hour c' == uptime_minutes_hour c)%Q
    /\ (downtime_minutes_hour c' == downtime_minutes_hour c)%Q
    /\ uptime_minutes_day c' = uptime_minutes_day c
    /\ downtime_minutes_day c' = downtime_minutes_day c
    /\ uptime_minutes_week c' = uptime_minutes_week c
    /\ downtime_minutes_week c' = downtime_minutes_week c.
Proof.
  intros Hclosed. unfold hour_step, hour_totals. rewrite Hclosed. cbn [rbind].
  eexists. split; [reflexivity|]. cbn. repeat split; ring.
Qed.

(** Without observations in the window, a row the estimator returns holds 0
    six times. *)
Lemma calculate_no_observations (pytz_timezone : string -> option (Z -> Z))
    (conn : database) (store_id start_time end_time : Z) (r : report_row) :
  fetch_store_data conn store_id start_time end_time = [] ->
  calculate_uptime_downtime pytz_timezone conn store_id start_time end_time = Ok r ->
  row_is r store_id 0 0 0 0 0 0.
Proof.
  unfold calculate_uptime_downtime. intros Hempty Hrun. rewrite Hempty in Hrun.
  destruct (Utils.convert_utc_to_local _ (NaiveDatetime start_time) _) as [local_start_time|e];
    cbn [rbind] in Hrun; [|discriminate].
  destruct (Utils.convert_utc_to_local _ (NaiveDatetime end_time) _) as [local_end_time|e];
    cbn [rbind] in Hrun; [|discriminate].
  destruct (for_each _ _ _) as [c|e] eqn:Hloop; cbn [rbind] in Hrun; [|discriminate].
  injection Hrun as <-.
  assert (Hzero : all_zero c).
  { eapply for_each_invariant; [|exact Hloop|].
    - intros s x s'. apply hour_step_all_zero.
    - repeat split; reflexivity. }
  destruct Hzero as (H1 & H2 & H3 & H4 & H5 & H6).
  unfold row_is. cbn. rewrite H1, H2, H3, H4, H5, H6.
  repeat split; reflexivity.
Qed.

(** The estimator returns six zeros for a store without observation in the
    window whose timezone pytz knows and whose id is no weekday number. *)
Lemma calculate_returns_quiet (pytz_timezone : string -> option (Z -> Z))
    (conn : database) (store_id start_time end_time : Z) (local_tz : Z -> Z) :
  pytz_timezone (fetch_store_timezone conn store_id) = Some local_tz ->
  store_id < 0 \/ 6 < store_id ->
  fetch_store_data conn store_id start_time end_time = [] ->
  returns_row (calculate_uptime_downtime pytz_timezone conn store_id
                 start_time end_time) store_id 0 0 0 0 0 0.
Proof.
  intros Hzone Hid Hempty.
  destruct (calculate_uptime_downtime pytz_timezone conn store_id start_time end_time)
    as [r|e] eqn:Hrun.
  - eapply calculate_no_observations; eassumption.
  - exfalso. unfold calculate_uptime_downtime, Utils.convert_utc_to_local in Hrun.
    rewrite Hzone, Hempty in Hrun. cbn [rbind] in Hrun.
    match type of Hrun with
    | context [for_each ?body ?xs ?c0] =>
        assert (Hloop : exists c, for_each body xs c0 = Ok c)
    end.
    { apply for_each_returns. intros s hs _. apply hour_step_no_data_returns.
      apply fetch_store_hours_no_weekday. exact Hid. }
    destruct Hloop as [c Hc]. rewrite Hc in Hrun. discriminate.
Qed.

(** Every row the estimator returns holds 0 six times. *)
Lemma calculate_only_zeros (pytz_timezone : string -> option (Z -> Z))
    (conn : database) (store_id start_time end_time : Z) (r : report_row) :
  calculate_uptime_downtime pytz_timezone conn store_id start_time end_time = Ok r ->
  row_is r store_id 0 0 0 0 0 0.
Proof.
  unfold calculate_uptime_downtime. intros Hrun.
  destruct (Utils.convert_utc_to_local _ (NaiveDatetime start_time) _)
    as [local_start_time|e]; cbn [rbind] in Hrun; [|discriminate].
  destruct (Utils.convert_utc_to_local _ (NaiveDatetime end_time) _)
    as [local_end_time|e]; cbn [rbind] in Hrun; [|discriminate].
  destruct (for_each _ _ _) as [c|e] eqn:Hloop; cbn [rbind] in Hrun; [|discriminate].
  injection Hrun as <-.
  assert (Hzero : all_zero c).
  { eapply for_each_invariant; [|exact Hloop|].
    - intros s x s'. apply hour_step_keeps_zero. apply fetch_store_data_aware.
    - repeat split; reflexivity. }
  destruct Hzero as (H1 & H2 & H3 & H4 & H5 & H6).
  unfold row_is. cbn. rewrite H1, H2, H3, H4, H5, H6.
  repeat split; reflexivity.
Qed.

(** ** The scenario of the single Monday hour *)

(** The wall clock of the Monday of week [k] at 09:00 in UTC. *)
Lemma monday_morning_wall (k : Z) :
  let hour_start_time := mk_datetime (Examples.at_time (Examples.monday k) 9 0 0 + 0) 0 in
  dt_weekday hour_start_time = 0 /\ dt_time hour_start_time = time_hms 9 0 0.
Proof.
  cbv zeta. unfold dt_weekday, dt_time, Examples.at_time, Examples.monday.
  cbn [dt_wall].
  replace ((7 * k + 4) * US_PER_DAY + time_hms 9 0 0 + 0)
    with (time_hms 9 0 0 + (7 * k + 4) * US_PER_DAY) by lia.
  split.
  - rewrite Z_div_plus_full by discriminate.
    replace (time_hms 9 0 0 / US_PER_DAY) with 0 by reflexivity.
    replace (0 + (7 * k + 4) + 3) with ((k + 1) * 7) by lia.
    apply Z_mod_mult.
  - rewrite Z_mod_plus_full. reflexivity.
Qed.

(** For every store id other than 0 and every week, the hour of the scenario
    is visited and the estimator ends with ValueError at its observation. *)
Lemma scenario_other_stores (store_id k : Z) :
  store_id <> 0 ->
  let start_time := Examples.at_time (Examples.monday k) 9 0 0 in
  calculate_uptime_downtime Examples.pytz_utc (Examples.scenario_db store_id k)
    store_id start_time (start_time + delta)
  = Raise ValueError.
Proof.
  intros Hid start_time.
  assert (Hdelta : delta = 3600000000) by reflexivity.
  destruct (monday_morning_wall k) as [Hdow Htime]. fold start_time in Hdow, Htime.
  unfold calculate_uptime_downtime.
  assert (Hzone : fetch_store_timezone (Examples.scenario_db store_id k) store_id = "UTC").
  { unfold fetch_store_timezone, Examples.scenario_db. cbn [store_tz].
    rewrite filter_cons_True by reflexivity. reflexivity. }
  assert (Hdata : fetch_store_data (Examples.scenario_db store_id k) store_id
                    start_time (start_time + delta)
                  = [(AwareDatetime (mk_datetime start_time 0), Some "active")]).
  { unfold fetch_store_data, Examples.scenario_db, Examples.observation.
    cbn [store_data omap list_omap select_store_data sd_store_id sd_timestamp_utc
         sd_status].
    fold start_time. rewrite Z.eqb_refl, Z.leb_refl. cbn [andb].
    destruct (Z.ltb_spec start_time (start_time + delta)); [reflexivity|lia]. }
  rewrite Hzone, Hdata.
  change (Utils.convert_utc_to_local Examples.pytz_utc (NaiveDatetime start_time) "UTC")
    with (Ok (mk_datetime (start_time + 0) 0)).
  change (Utils.convert_utc_to_local Examples.pytz_utc
            (NaiveDatetime (start_time + delta)) "UTC")
    with (Ok (mk_datetime (start_time + delta + 0) 0)).
  cbn [rbind].
  set (hs := mk_datetime (start_time + 0) 0) in *.
  assert (Hwalk : Utils.time_range hs (mk_datetime (start_time + delta + 0) 0) delta
                  = [hs]).
  { unfold Utils.time_range, Utils.time_range_fuel.
    replace (dt_utc (mk_datetime (start_time + delta + 0) 0) - dt_utc hs) with delta
      by (unfold dt_utc, hs; cbn [dt_wall dt_utcoffset]; lia).
    change (Z.to_nat (delta / delta + 1)) with 2%nat.
    cbn [Utils.time_range_loop]. unfold dt_lt, dt_add, dt_utc, hs.
    cbn [dt_wall dt_utcoffset].
    destruct (Z.ltb_spec (start_time + 0 - 0) (start_time + delta + 0 - 0)); [|lia].
    destruct (Z.ltb_spec (start_time + 0 + delta - 0) (start_time + delta + 0 - 0));
      [lia|reflexivity]. }
  rewrite Hwalk. cbn [for_each].
  rewrite hour_step_aware; [| repeat constructor | discriminate].
  rewrite within_fallback
    by (rewrite Hdow; apply fetch_store_hours_other_key; congruence).
  rewrite Htime.
  change (time_hms 9 0 0 <? time_hms 23 59 59) with true.
  change (time_hms 9 0 0 =? time_hms 23 0 0) with false.
  reflexivity.
Qed.


(** ** Report generation: the store loop *)

Section ReportLoop.

Variable pytz_timezone : string -> option (Z -> Z).
Variable clock : nat -> Z.
Variable conn : database.

(** The window of the [i]-th store of a loop entered after [ticks] clock
    readings. *)
Lemma report_loop_raises (stores : list Z) :
  forall (ticks : nat) (report_data : list report_row) (i : nat)
         (store_id : Z) (e : exn),
    nth_error stores i = Some store_id ->
    calculate_uptime_downtime pytz_timezone conn store_id
      (clock (ticks + 2 * i) - timedelta_weeks 1) (clock (S (ticks + 2 * i)))
    = Raise e ->
    exists e' ticks',
      report_loop pytz_timezone clock conn stores ticks report_data
      = (Raise e', ticks').
Proof.
  induction stores as [|s stores IH]; intros ticks report_data i store_id e Hnth Hcalc.
  - destruct i; discriminate.
  - cbn [report_loop]. destruct i as [|i].
    + injection Hnth as ->. rewrite Nat.mul_0_r, Nat.add_0_r in Hcalc.
      rewrite Hcalc. eauto.
    + cbn [nth_error] in Hnth.
      destruct (calculate_uptime_downtime _ _ s _ _) as [row|e0]; [|eauto].
      apply (IH (S (S ticks)) (report_data ++ [row])%list i store_id e Hnth).
      replace (S (S ticks) + 2 * i)%nat with (ticks + 2 * S i)%nat by lia.
      exact Hcalc.
Qed.

(** A loop that completes has appended one row per store id, each the
    estimator's row for that store and its window. *)
Lemma report_loop_rows (stores : list Z) :
  forall (ticks : nat) (report_data rows : list report_row) (ticks' : nat),
    report_loop pytz_timezone clock conn stores ticks report_data
    = (Ok rows, ticks') ->
    ticks' = (ticks + 2 * length stores)%nat
    /\ exists new : list report_row,
        rows = (report_data ++ new)%list
        /\ length new = length stores
        /\ forall (i : nat) (store_id : Z),
            nth_error stores i = Some store_id ->
            exists row,
              nth_error new i = Some row
              /\ calculate_uptime_downtime pytz_timezone conn store_id
                   (clock (ticks + 2 * i) - timedelta_weeks 1)
                   (clock (S (ticks + 2 * i))) = Ok row.
Proof.
  induction stores as [|s stores IH]; intros ticks report_data rows ticks' Hrun.
  - cbn in Hrun. injection Hrun as <- <-. split; [cbn; lia|].
    exists []. rewrite app_nil_r. repeat split.
    intros i store_id Hnth. destruct i; discriminate.
  - cbn [report_loop] in Hrun.
    destruct (calculate_uptime_downtime _ _ s _ _) as [row|e] eqn:Hcalc;
      [|discriminate].
    apply IH in Hrun. destruct Hrun as (-> & new & -> & Hlen & Hrows).
    split; [cbn [length]; lia|].
    exists (row :: new). rewrite <- app_assoc. repeat split.
    + cbn [length]. lia.
    + intros i store_id Hnth. destruct i as [|i].
      * injection Hnth as <-. exists row. split; [reflexivity|].
        rewrite Nat.mul_0_r, Nat.add_0_r. exact Hcalc.
      * cbn [nth_error] in Hnth. destruct (Hrows i store_id Hnth) as (r & Hr & Hc).
        exists r. split; [exact Hr|].
        replace (ticks + 2 * S i)%nat with (S (S ticks) + 2 * i)%nat by lia.
        exact Hc.
Qed.

End ReportLoop.

(** ** The job table *)

(** ** The life of a report job *)
Lemma status_none_filter (conn : database) (report_id : string) :
  Report.get_report_status conn report_id = None ->
  filter (fun row => rp_report_id row = report_id) (reports conn) = [].
Proof.
  unfold Report.get_report_status.
  destruct (filter _ (reports conn)); [reflexivity|discriminate].
Qed.

Lemma filter_update_other (status report_id other : string)
    (rows : list reports_row) :
  report_id <> other ->
  filter (fun row => rp_report_id row = report_id)
    (update_report_status status other rows)
  = filter (fun row => rp_report_id row = report_id) rows.
Proof.
  intros Hne. induction rows as [|row rows IH]; [reflexivity|].
  cbn [update_report_status map]. fold (update_report_status status other rows).
  rewrite !filter_cons, IH.
  destruct (String.eqb_spec (rp_report_id row) other) as [Heq|Hneq].
  - cbn [rp_report_id]. rewrite Heq.
    destruct (decide (other = report_id)); [congruence|reflexivity].
  - reflexivity.
Qed.

Lemma filter_update_same (status report_id : string) (rows : list reports_row) :
  filter (fun row => rp_report_id row = report_id)
    (update_report_status status report_id rows)
  = map (fun row => mk_reports (rp_report_id row) status)
      (filter (fun row => rp_report_id row = report_id) rows).
Proof.
  induction rows as [|row rows IH]; [reflexivity|].
  cbn [update_report_status map]. fold (update_report_status status report_id rows).
  rewrite !filter_cons, IH.
  destruct (String.eqb_spec (rp_report_id row) report_id) as [Heq|Hneq].
  - cbn [rp_report_id].
    destruct (decide (rp_report_id row = report_id)); [reflexivity|congruence].
  - destruct (decide (rp_report_id row = report_id)); [congruence|reflexivity].
Qed.

(** ** Report generation and the job table *)
Lemma update_report_status_ids (status report_id : string) (rows : list reports_row) :
  map rp_report_id (update_report_status status report_id rows)
  = map rp_report_id rows.
Proof.
  unfold update_report_status. rewrite map_map. apply map_ext.
  intros row. destruct (String.eqb (rp_report_id row) report_id); reflexivity.
Qed.

Lemma update_report_status_no_match (status report_id : string)
    (rows : list reports_row) :
  filter (fun row => rp_report_id row = report_id) rows = [] ->
  update_report_status status report_id rows = rows.
Proof.
  induction rows as [|row rows IH]; intros Hnone; [reflexivity|].
  rewrite filter_cons in Hnone.
  destruct (decide (rp_report_id row = report_id)) as [Heq|Hne]; [discriminate|].
  cbn [update_report_status map]. fold (update_report_status status report_id rows).
  rewrite IH by exact Hnone.
  destruct (String.eqb_spec (rp_report_id row) report_id); [contradiction|reflexivity].
Qed.

Lemma report_path_response (strftime : Z -> string) (now : Z) :
  String.eqb (report_path strftime now) "" = false
  /\ String.eqb (report_path strftime now) "Running" = false.
Proof. split; reflexivity. Qed.

Section Jobs.

Variable pytz_timezone : string -> option (Z -> Z).
Variable clock : nat -> Z.
Variable strftime : Z -> string.
Variable can_open : string -> bool.

(** The estimator reads the three data tables only. *)
Lemma report_loop_reads_data (conn : database) (rows : list reports_row)
    (stores : list Z) :
  forall (ticks : nat) (report_data : list report_row),
    report_loop pytz_timezone clock (set_reports conn rows) stores ticks report_data
    = report_loop pytz_timezone clock conn stores ticks report_data.
Proof.
  induction stores as [|s stores IH]; intros ticks report_data; [reflexivity|].
  cbn [report_loop].
  change (calculate_uptime_downtime pytz_timezone (set_reports conn rows) s)
    with (calculate_uptime_downtime pytz_timezone conn s).
  destruct (calculate_uptime_downtime _ _ _ _ _); [apply IH|reflexivity].
Qed.

(** What a run that returns has done. *)
Lemma generate_report_success (w w' : world) (report_id : string) :
  generate_report pytz_timezone clock strftime can_open w report_id = (Ok tt, w') ->
  let ticks' := (w_ticks w + 2 * length (fetch_store_ids (w_conn w)))%nat in
  let path := report_path strftime (clock ticks') in
  exists rows : list report_row,
    report_loop pytz_timezone clock (w_conn w) (fetch_store_ids (w_conn w))
      (w_ticks w) [] = (Ok rows, ticks')
    /\ length rows = length (fetch_store_ids (w_conn w))
    /\ w' = mk_world
              (set_reports (w_conn w)
                 (update_report_status path report_id (reports (w_conn w))))
              (<[ path := (fieldnames, rows) ]> (w_files w)) (S ticks').
Proof.
  unfold generate_report. intros Hrun.
  destruct (report_loop _ _ _ _ _ _) as [[rows|e] t] eqn:Hloop; [|discriminate].
  pose proof (report_loop_rows _ _ _ _ _ _ _ _ Hloop) as (-> & new & Hrows & Hlen & _).
  cbn [app] in Hrows. subst new.
  destruct (can_open _); [|discriminate].
  injection Hrun as <-. exists rows. repeat split; assumption.
Qed.

(** Running a job writes to the rows of its own id only. *)
Lemma job_leaves_other_ids (w : world) (report_id other : string) :
  report_id <> other ->
  Report.get_report_status
    (w_conn (snd (Report.generate_report pytz_timezone clock strftime can_open
                    w other))) report_id
  = Report.get_report_status (w_conn w) report_id.
Proof.
  intros Hne.
  assert (Hins : filter (fun row => rp_report_id row = report_id)
                   (reports (w_conn w) ++ [mk_reports other "Running"])%list
                 = filter (fun row => rp_report_id row = report_id)
                     (reports (w_conn w))).
  { rewrite filter_app, filter_cons. cbn [rp_report_id].
    destruct (decide (other = report_id)); [congruence|].
    rewrite filter_nil. apply app_nil_r. }
  unfold Report.generate_report, generate_report, Report.get_report_status.
  cbn [w_conn w_files w_ticks].
  destruct (report_loop _ _ _ _ _ _) as [[rows|e] ticks'].
  - destruct (can_open _); cbn [snd w_conn set_reports reports].
    + rewrite filter_update_other by exact Hne. rewrite Hins. reflexivity.
    + rewrite Hins. reflexivity.
  - cbn [snd w_conn set_reports reports]. rewrite Hins. reflexivity.
Qed.

(** A job triggered under a fresh id ends with the report path as its
    status when generation returns, and with "Running" when it raises. *)
Lemma fresh_job_status (w : world) (report_id : string) :
  Report.get_report_status (w_conn w) report_id = None ->
  let run := Report.generate_report pytz_timezone clock strftime can_open
               w report_id in
  match fst run with
  | Ok _ =>
      exists stamp : string,
        Report.get_report_status (w_conn (snd run)) report_id
        = Some ("reports/" ++ ("report_" ++ stamp ++ ".csv"))%string
  | Raise _ =>
      Report.get_report_status (w_conn (snd run)) report_id = Some "Running"
  end.
Proof.
  intros Hfresh. apply status_none_filter in Hfresh.
  assert (Hins : filter (fun row => rp_report_id row = report_id)
                   (reports (w_conn w) ++ [mk_reports report_id "Running"])%list
                 = [mk_reports report_id "Running"]).
  { rewrite filter_app, Hfresh, filter_cons. cbn [rp_report_id].
    destruct (decide (report_id = report_id)); [|congruence].
    reflexivity. }
  unfold Report.generate_report, generate_report, Report.get_report_status.
  cbn [w_conn w_files w_ticks].
  destruct (report_loop _ _ _ _ _ _) as [[rows|e] ticks'].
  - destruct (can_open _); cbn [fst snd w_conn set_reports reports].
    + rewrite filter_update_same, Hins. cbn [map rp_status rp_report_id].
      eexists. reflexivity.
    + rewrite Hins. reflexivity.
  - cbn [fst snd w_conn set_reports reports]. rewrite Hins. reflexivity.
Qed.

(** What a job that returns, triggered under a fresh id, has done. *)
Lemma job_success (w w' : world) (report_id : string) :
  Report.get_report_status (w_conn w) report_id = None ->
  Report.generate_report pytz_timezone clock strftime can_open w report_id
  = (Ok tt, w') ->
  let ticks' := (w_ticks w + 2 * length (menu_hours (w_conn w)))%nat in
  let path := report_path strftime (clock ticks') in
  exists rows : list report_row,
    report_loop pytz_timezone clock (w_conn w) (fetch_store_ids (w_conn w))
      (w_ticks w) [] = (Ok rows, ticks')
    /\ length rows = length (menu_hours (w_conn w))
    /\ Report.get_report_status (w_conn w') report_id = Some path
    /\ w_files w' = <[ path := (fieldnames, rows) ]> (w_files w)
    /\ w_ticks w' = S ticks'
    /\ store_data (w_conn w') = store_data (w_conn w)
    /\ menu_hours (w_conn w') = menu_hours (w_conn w)
    /\ store_tz (w_conn w') = store_tz (w_conn w).
Proof.
  intros Hfresh Hrun. unfold Report.generate_report in Hrun.
  apply generate_report_success in Hrun. cbv zeta in Hrun.
  cbn [w_conn w_ticks w_files] in Hrun.
  destruct Hrun as (rows & Hloop & Hlen & ->).
  change (fetch_store_ids (set_reports (w_conn w) _)) with (fetch_store_ids (w_conn w))
    in *.
  rewrite report_loop_reads_data in Hloop.
  unfold fetch_store_ids in Hlen, Hloop. rewrite length_map in Hlen, Hloop.
  exists rows. unfold fetch_store_ids. rewrite length_map.
  split; [exact Hloop|]. split; [exact Hlen|].
  cbn [w_conn w_files w_ticks set_reports store_data menu_hours store_tz reports].
  split; [|repeat split].
  unfold Report.get_report_status. cbn [reports set_reports].
  rewrite filter_update_same, filter_app, (status_none_filter _ _ Hfresh), filter_cons.
  cbn [rp_report_id]. destruct (decide (report_id = report_id)); [|congruence].
  reflexivity.
Qed.

(** No step of the system changes the status a job has. *)
Lemma step_keeps_status (w w' : world) (report_id status : string) :
  step pytz_timezone clock strftime can_open w w' ->
  Report.get_report_status (w_conn w) report_id = Some status ->
  Report.get_report_status (w_conn w') report_id = Some status.
Proof.
  intros Hstep Hstatus. destruct Hstep as [w other Hfresh | w conn' Hsame].
  - rewrite job_leaves_other_ids; [exact Hstatus|]. congruence.
  - cbn [w_conn]. unfold Report.get_report_status in *. rewrite Hsame. exact Hstatus.
Qed.

Lemma steps_keep_status (w w' : world) (report_id status : string) :
  steps pytz_timezone clock strftime can_open w w' ->
  Report.get_report_status (w_conn w) report_id = Some status ->
  Report.get_report_status (w_conn w') report_id = Some status.
Proof.
  intros Hsteps. induction Hsteps as [w | w w1 w2 Hstep _ IH]; intros Hstatus.
  - exact Hstatus.
  - apply IH. eapply step_keeps_status; eassumption.
Qed.

End Jobs.

(** * The claims *)

(** ** The business-hours lookup *)

(** C1 (the code departs from the claim).  On the schedule row
    (100, Monday, 09:00, 17:00) the lookup for store 100 returns the
    dictionary with the single key 100, the store id, whose value pairs the
    weekday number with the opening time; nothing is stored under Monday's
    number 0 and the closing time 17:00 appears nowhere. *)
Theorem fetch_store_hours_keyed_by_store_id :
  fetch_store_hours Examples.evening_db 100
  = {[ 100 := (PyInt 0, PyTime (time_hms 9 0 0)) ]}
  /\ fetch_store_hours Examples.evening_db 100 !! 0 = None
  /\ fetch_store_hours Examples.evening_db 100 !! 100
     = Some (PyInt 0, PyTime (time_hms 9 0 0)).
Proof. vm_compute. repeat split; reflexivity. Qed.

(** C7 (the code departs from the claim and from its own comment "Store is
    open 24 hours").  Store 100 has no row for Monday and the fallback
    (00:00:00, 23:59:59) is used; yet the hour that starts on Monday at
    23:00:00 is not within business hours, because its end reads 00:00:00
    and 00:00:00 > 00:00:00 is false.  The hour is skipped and the estimator
    returns 0 six times, the observation of 23:10 counted nowhere. *)
Theorem fallback_misses_the_23h_hour :
  let conn := Examples.tuesday_only_db in
  let start_time := Examples.at_time (Examples.monday 0) 23 0 0 in
  let hour_start_time := mk_datetime start_time 0 in
  dt_weekday hour_start_time = 0
  /\ fetch_store_hours conn 100 !! 0 = None
  /\ business_hours (fetch_store_hours conn 100) 0
     = (PyTime (time_hms 0 0 0), PyTime (time_hms 23 59 59))
  /\ within_business_hours (fetch_store_hours conn 100) hour_start_time = Ok false
  /\ returns_row (calculate_uptime_downtime Examples.pytz_utc conn 100
                    start_time (start_time + delta)) 100 0 0 0 0 0 0.
Proof. vm_compute. repeat split; reflexivity. Qed.

(** C6 (the code departs from the claim).  Store 100 is open on Monday from
    09:00 to 17:00; the hour that starts on Monday at 20:00 does not overlap
    that interval, and still the guard holds and the hour is visited: the
    dictionary is keyed by the store id, so the fallback is taken.  The
    visit then ends the estimator with ValueError at the observation of
    20:00, where the claim has a row with zeros. *)
Theorem closed_hour_still_visited :
  let conn := Examples.evening_db in
  let start_time := Examples.at_time (Examples.monday 0) 20 0 0 in
  let hour_start_time := mk_datetime start_time 0 in
  dt_weekday hour_start_time = 0
  /\ (dt_time hour_start_time <? time_hms 17 0 0) = false
  /\ within_business_hours (fetch_store_hours conn 100) hour_start_time = Ok true
  /\ fetch_store_data conn 100 start_time (start_time + delta)
     = [(AwareDatetime (mk_datetime start_time 0), Some "active")]
  /\ calculate_uptime_downtime Examples.pytz_utc conn 100
       start_time (start_time + delta) = Raise ValueError.
Proof. vm_compute. repeat split; reflexivity. Qed.

(** C9 (the code departs from the claim).  For store id 0 the scenario
    (timezone UTC, Monday 09:00-17:00 only, one "active" observation on
    Monday at 09:00 UTC, window that single hour) yields 0 for all six
    outputs: the dictionary holds (0, 09:00) under the key 0, the guard reads
    09:00 < 09:00 and the hour is skipped. *)
Theorem scenario_store_zero_counts_nothing :
  let start_time := Examples.at_time (Examples.monday 0) 9 0 0 in
  returns_row (calculate_uptime_downtime Examples.pytz_utc
                 (Examples.scenario_db 0 0) 0 start_time (start_time + delta))
    0 0 0 0 0 0 0.
Proof. vm_compute. repeat split; reflexivity. Qed.

(** ** Apportionment *)

(** C8 (the code departs from the claim).  Store 100 has one "active"
    observation on Monday at 09:00 UTC, inside the visited hour 09:00-10:00.
    The span the claim speaks of would be 60 minutes, but the code never
    computes it: the observation read from the TIMESTAMPTZ column is an aware
    datetime, [utc.localize] refuses it, and the hour, and with it the
    estimator, ends with ValueError instead of an uptime of 60. *)
Theorem visited_hour_raises_value_error :
  let conn := Examples.scenario_db 100 0 in
  let start_time := Examples.at_time (Examples.monday 0) 9 0 0 in
  let hour_start_time := mk_datetime start_time 0 in
  let store_data := fetch_store_data conn 100 start_time (start_time + delta) in
  store_data = [(AwareDatetime (mk_datetime start_time 0), Some "active")]
  /\ within_business_hours (fetch_store_hours conn 100) hour_start_time = Ok true
  /\ (span_minutes (mk_datetime start_time 0) hour_start_time == 60)%Q
  /\ hour_totals Examples.pytz_utc "UTC" store_data (fetch_store_hours conn 100)
       hour_start_time = Raise ValueError
  /\ calculate_uptime_downtime Examples.pytz_utc conn 100
       start_time (start_time + delta) = Raise ValueError.
Proof. vm_compute. repeat split; reflexivity. Qed.




(** ** The counters of the estimator *)



(** ** Report generation *)

(** C4 as it stands fails: of the stores 300 and 100 the first computes (it
    has no observation and its row holds zeros) and the second raises
    ValueError; report generation raises that exception, and no file, hence
    no row of store 300, is written. *)
Lemma one_bad_store_loses_the_report :
  let w := Examples.world_of Examples.quiet_store_db in
  let run := generate_report Examples.pytz_utc Examples.clock Examples.strftime
               Examples.can_open w "job-1" in
  fetch_store_ids (w_conn w) = [300; 100]
  /\ returns_row (calculate_uptime_downtime Examples.pytz_utc (w_conn w) 300
                    (Examples.clock 0 - timedelta_weeks 1) (Examples.clock 1))
       300 0 0 0 0 0 0
  /\ calculate_uptime_downtime Examples.pytz_utc (w_conn w) 100
       (Examples.clock 2 - timedelta_weeks 1) (Examples.clock 3)
     = Raise ValueError
  /\ fst run = Raise ValueError
  /\ w_files (snd run) = ∅.
Proof. vm_compute. repeat split; reflexivity. Qed.

(** C4 (amended).  If computing the row of one of the enumerated stores
    raises, report generation raises as well: no file is written, so no
    store's row is produced, and the tables are left as they were. *)
Theorem store_fault_aborts_report (pytz_timezone : string -> option (Z -> Z))
    (clock : nat -> Z) (strftime : Z -> string) (can_open : string -> bool)
    (w : world) (report_id : string) (i : nat) (store_id : Z) (e : exn) :
  nth_error (fetch_store_ids (w_conn w)) i = Some store_id ->
  calculate_uptime_downtime pytz_timezone (w_conn w) store_id
    (clock (w_ticks w + 2 * i)%nat - timedelta_weeks 1)
    (clock (S (w_ticks w + 2 * i))) = Raise e ->
  let run := generate_report pytz_timezone clock strftime can_open w report_id in
  (exists e', fst run = Raise e')
  /\ w_files (snd run) = w_files w
  /\ w_conn (snd run) = w_conn w.
Proof.
  intros Hnth Hcalc run. subst run. unfold generate_report.
  destruct (report_loop_raises pytz_timezone clock (w_conn w) _ (w_ticks w) []
              i store_id e Hnth Hcalc) as (e' & ticks' & Hloop).
  rewrite Hloop. cbn. eauto.
Qed.

Lemma store_fault_aborts_report_witness :
  let w := Examples.world_of Examples.quiet_store_db in
  let run := generate_report Examples.pytz_utc Examples.clock Examples.strftime
               Examples.can_open w "job-1" in
  nth_error (fetch_store_ids (w_conn w)) 1 = Some 100
  /\ (exists e', fst run = Raise e')
  /\ w_files (snd run) = w_files w
  /\ w_conn (snd run) = w_conn w.
Proof.
  split; [reflexivity|].
  apply (store_fault_aborts_report Examples.pytz_utc Examples.clock
           Examples.strftime Examples.can_open
           (Examples.world_of Examples.quiet_store_db) "job-1" 1 100 ValueError).
  - reflexivity.
  - vm_compute. reflexivity.
Defined.




(** ** The life of a report job *)

(** C5 as it stands fails: the job "job-1" is created "Running", report
    generation raises ValueError on store 100, and the status is "Running"
    afterwards and after every further step of the system: whoever polls the
    job is answered "Running" for ever. *)
Lemma failed_job_stays_running :
  let run := Report.generate_report Examples.pytz_utc Examples.clock
               Examples.strftime Examples.can_open
               (Examples.world_of Examples.quiet_store_db) "job-1" in
  fst run = Raise ValueError
  /\ Report.get_report_status (w_conn (snd run)) "job-1" = Some "Running"
  /\ forall w' : world,
      steps Examples.pytz_utc Examples.clock Examples.strftime Examples.can_open
        (snd run) w' ->
      Routes.get_report (w_conn w') "job-1" = Routes.Running.
Proof.
  intros run.
  assert (Hraise : fst run = Raise ValueError) by (vm_compute; reflexivity).
  assert (Hstatus : Report.get_report_status (w_conn (snd run)) "job-1"
                    = Some "Running") by (vm_compute; reflexivity).
  split; [exact Hraise|]. split; [exact Hstatus|].
  intros w' Hsteps. unfold Routes.get_report.
  rewrite (steps_keep_status _ _ _ _ _ _ _ _ Hsteps Hstatus). reflexivity.
Qed.

(** C5 (amended).  A job triggered under a fresh id is created "Running".
    When report generation returns, its status is the path of the report
    file, which was written under that path and is not "Running"; when
    report generation raises, its status is still "Running".  In both cases
    no later step of the system changes the status: a completed job never
    goes back, and a failed one stays "Running". *)
Theorem report_job_lifecycle (pytz_timezone : string -> option (Z -> Z))
    (clock : nat -> Z) (strftime : Z -> string) (can_open : string -> bool)
    (w : world) (report_id : string) :
  Report.get_report_status (w_conn w) report_id = None ->
  let created :=
    set_reports (w_conn w)
      (reports (w_conn w) ++ [mk_reports report_id "Running"])%list in
  let run := Report.generate_report pytz_timezone clock strftime can_open
               w report_id in
  let path :=
    report_path strftime
      (clock (w_ticks w + 2 * length (menu_hours (w_conn w)))%nat) in
  Report.get_report_status created report_id = Some "Running"
  /\ match fst run with
     | Ok _ =>
         Report.get_report_status (w_conn (snd run)) report_id = Some path
         /\ path <> "Running"
         /\ exists rows : list report_row,
             w_files (snd run) !! path = Some (fieldnames, rows)
     | Raise _ =>
         Report.get_report_status (w_conn (snd run)) report_id = Some "Running"
     end
  /\ forall w' : world,
      steps pytz_timezone clock strftime can_open (snd run) w' ->
      Report.get_report_status (w_conn w') report_id
      = Report.get_report_status (w_conn (snd run)) report_id.
Proof.
  intros Hfresh created run path.
  pose proof (fresh_job_status pytz_timezone clock strftime can_open w report_id
                Hfresh) as Hend.
  cbv zeta in Hend. fold run in Hend.
  split; [|split].
  - subst created. unfold Report.get_report_status. cbn [set_reports reports].
    rewrite filter_app, (status_none_filter _ _ Hfresh), filter_cons.
    cbn [rp_report_id]. destruct (decide (report_id = report_id)); [|congruence].
    reflexivity.
  - destruct (fst run) as [[]|e] eqn:Hfst; [|exact Hend].
    assert (Hrun : Report.generate_report pytz_timezone clock strftime can_open
                     w report_id = (Ok tt, snd run)).
    { fold run. rewrite <- Hfst. apply surjective_pairing. }
    destruct (job_success pytz_timezone clock strftime can_open w (snd run)
                report_id Hfresh Hrun) as (rows & _ & _ & Hstatus & Hfiles & _).
    split; [exact Hstatus|]. split; [discriminate|].
    exists rows. rewrite Hfiles. apply lookup_insert_eq.
  - intros w' Hsteps.
    assert (Hsome : exists status,
               Report.get_report_status (w_conn (snd run)) report_id = Some status).
    { destruct (fst run); [destruct Hend as [stamp Hend]|]; eauto. }
    destruct Hsome as [status Hstatus]. rewrite Hstatus.
    eapply steps_keep_status; eassumption.
Qed.

Lemma report_job_lifecycle_witness :
  let w := Examples.world_of Examples.silent_db in
  let run := Report.generate_report Examples.pytz_utc Examples.clock
               Examples.strftime Examples.can_open w "job-1" in
  Report.get_report_status (w_conn w) "job-1" = None
  /\ fst run = Ok tt
  /\ Routes.get_report (w_conn (snd run)) "job-1"
     = Routes.FileResponse "reports/report_19700112_100000.csv"
  /\ is_Some (w_files (snd run) !! "reports/report_19700112_100000.csv")
  /\ forall w' : world,
      steps Examples.pytz_utc Examples.clock Examples.strftime Examples.can_open
        (snd run) w' ->
      Report.get_report_status (w_conn w') "job-1"
      = Report.get_report_status (w_conn (snd run)) "job-1".
Proof.
  split; [reflexivity|].
  split; [vm_compute; reflexivity|].
  split; [vm_compute; reflexivity|].
  split; [vm_compute; eexists; reflexivity|].
  apply (report_job_lifecycle Examples.pytz_utc Examples.clock Examples.strftime
           Examples.can_open (Examples.world_of Examples.silent_db) "job-1").
  reflexivity.
Defined.


(** * Further properties of the code *)

(** ** utils.py *)

(** X1.  [time_range] yields nothing when the end is not after the start,
    whatever the step: no wrap-around, no clamping. *)
Theorem time_range_empty (start_time end_time : datetime) (step : Z) :
  dt_utc end_time <= dt_utc start_time ->
  Utils.time_range start_time end_time step = [].
Proof.
  intros Hle. unfold Utils.time_range.
  destruct (Utils.time_range_fuel start_time end_time step) as [|fuel]; [reflexivity|].
  cbn [Utils.time_range_loop]. unfold dt_lt.
  destruct (Z.ltb_spec (dt_utc start_time) (dt_utc end_time)); [lia|reflexivity].
Qed.

Lemma time_range_empty_witness :
  dt_utc (mk_datetime 7200000000 0) <= dt_utc (mk_datetime 7200000000 0)
  /\ Utils.time_range (mk_datetime 7200000000 0) (mk_datetime 7200000000 0)
       (timedelta_hours 1) = [].
Proof.
  split; [vm_compute; discriminate|].
  apply (time_range_empty (mk_datetime 7200000000 0) (mk_datetime 7200000000 0)
           (timedelta_hours 1)).
  vm_compute. discriminate.
Defined.

Lemma dt_add_add (d : datetime) (a b : Z) : dt_add (dt_add d a) b = dt_add d (a + b).
Proof. unfold dt_add. cbn [dt_wall dt_utcoffset]. f_equal. lia. Qed.

Lemma time_range_loop_elements (step : Z) (end_time : datetime) :
  forall (fuel : nat) (start_time hs : datetime),
    In hs (Utils.time_range_loop fuel start_time end_time step) ->
    exists k : nat,
      hs = dt_add start_time (Z.of_nat k * step)
      /\ dt_utc hs < dt_utc end_time.
Proof.
  induction fuel as [|fuel IH]; intros start_time hs Hin; [destruct Hin|].
  cbn [Utils.time_range_loop] in Hin. unfold dt_lt in Hin.
  destruct (Z.ltb_spec (dt_utc start_time) (dt_utc end_time)) as [Hlt|]; [|destruct Hin].
  destruct Hin as [<- | Hin].
  - exists 0%nat. split; [|exact Hlt].
    unfold dt_add. destruct start_time. cbn. f_equal. lia.
  - destruct (IH _ _ Hin) as (k & -> & Hk). exists (S k). split; [|exact Hk].
    rewrite dt_add_add. f_equal. lia.
Qed.

(** X2.  With a positive step, every datetime [time_range] yields is the
    start moved by a whole number of steps: it keeps the start's UTC offset
    and lies in the half-open interval from start to end. *)
Theorem time_range_elements (start_time end_time hs : datetime) (step : Z) :
  0 < step ->
  In hs (Utils.time_range start_time end_time step) ->
  exists k : nat,
    hs = dt_add start_time (Z.of_nat k * step)
    /\ dt_utcoffset hs = dt_utcoffset start_time
    /\ dt_utc start_time <= dt_utc hs < dt_utc end_time.
Proof.
  intros Hstep Hin. apply time_range_loop_elements in Hin.
  destruct Hin as (k & -> & Hk). exists k. split; [reflexivity|].
  split; [reflexivity|]. split; [|exact Hk].
  unfold dt_add, dt_utc. cbn [dt_wall dt_utcoffset]. nia.
Qed.

Lemma time_range_elements_witness :
  let start_time := mk_datetime 1800000000 0 in
  let end_time := mk_datetime 9000000000 0 in
  let hs := mk_datetime 5400000000 0 in
  In hs (Utils.time_range start_time end_time (timedelta_hours 1))
  /\ exists k : nat,
      hs = dt_add start_time (Z.of_nat k * timedelta_hours 1)
      /\ dt_utcoffset hs = dt_utcoffset start_time
      /\ dt_utc start_time <= dt_utc hs < dt_utc end_time.
Proof.
  split; [vm_compute; right; left; reflexivity|].
  apply (time_range_elements (mk_datetime 1800000000 0) (mk_datetime 9000000000 0)
           (mk_datetime 5400000000 0) (timedelta_hours 1)).
  - reflexivity.
  - vm_compute. right. left. reflexivity.
Defined.

Lemma time_range_loop_covers (step : Z) (end_time : datetime) (t : Z) :
  0 < step ->
  forall (fuel : nat) (start_time : datetime),
    dt_utc end_time - dt_utc start_time < Z.of_nat fuel * step ->
    dt_utc start_time <= t < dt_utc end_time ->
    exists hs : datetime,
      In hs (Utils.time_range_loop fuel start_time end_time step)
      /\ dt_utc hs <= t < dt_utc hs + step.
Proof.
  intros Hstep. induction fuel as [|fuel IH]; intros start_time Hfuel Ht; [lia|].
  cbn [Utils.time_range_loop]. unfold dt_lt.
  destruct (Z.ltb_spec (dt_utc start_time) (dt_utc end_time)) as [Hlt|]; [|lia].
  destruct (Z.lt_ge_cases t (dt_utc start_time + step)) as [Hin|Hlater].
  - exists start_time. split; [left; reflexivity|lia].
  - destruct (IH (dt_add start_time step)) as (hs & Hhs & Hcover).
    + unfold dt_add, dt_utc in *. cbn [dt_wall dt_utcoffset]. lia.
    + unfold dt_add, dt_utc in *. cbn [dt_wall dt_utcoffset]. lia.
    + exists hs. split; [right; exact Hhs|exact Hcover].
Qed.

Lemma time_range_fuel_bound (start_time end_time : datetime) (step : Z) :
  0 < step ->
  dt_utc end_time - dt_utc start_time
  < Z.of_nat (Utils.time_range_fuel start_time end_time step) * step.
Proof.
  intros Hstep. unfold Utils.time_range_fuel.
  set (d := dt_utc end_time - dt_utc start_time).
  pose proof (Z.mul_succ_div_gt d step Hstep) as Hgt.
  destruct (Z.le_gt_cases 0 (d / step + 1)) as [Hnn|Hneg].
  - rewrite Z2Nat.id by exact Hnn. lia.
  - replace (Z.to_nat (d / step + 1)) with 0%nat by lia.
    assert (d / step < 0) by lia.
    assert (d < 0); [|lia].
    destruct (Z.lt_ge_cases d 0) as [|Hd]; [assumption|].
    pose proof (Z.div_pos d step Hd Hstep). lia.
Qed.

(** X3.  With a positive step the walk leaves no gap: every instant of the
    window from start to end lies in the step-long slice of one of the
    datetimes [time_range] yields. *)
Theorem time_range_covers (start_time end_time : datetime) (step t : Z) :
  0 < step ->
  dt_utc start_time <= t < dt_utc end_time ->
  exists hs : datetime,
    In hs (Utils.time_range start_time end_time step)
    /\ dt_utc hs <= t < dt_utc hs + step.
Proof.
  intros Hstep Ht. unfold Utils.time_range.
  apply time_range_loop_covers; [exact Hstep| |exact Ht].
  apply time_range_fuel_bound. exact Hstep.
Qed.

Lemma time_range_covers_witness :
  let start_time := mk_datetime 1800000000 0 in
  let end_time := mk_datetime 9000000000 0 in
  dt_utc start_time <= 8999999999 < dt_utc end_time
  /\ exists hs : datetime,
      In hs (Utils.time_range start_time end_time (timedelta_hours 1))
      /\ dt_utc hs <= 8999999999 < dt_utc hs + timedelta_hours 1.
Proof.
  split; [vm_compute; split; [discriminate|reflexivity]|].
  apply (time_range_covers (mk_datetime 1800000000 0) (mk_datetime 9000000000 0)
           (timedelta_hours 1) 8999999999).
  - reflexivity.
  - vm_compute. split; [discriminate|reflexivity].
Defined.

(** X4.  Localising keeps the instant: whatever offsets the zone has at two
    naive UTC timestamps, the localised datetimes compare as the timestamps
    do and lie as far apart, and the wall clock is the timestamp moved by
    the offset in force. *)
Theorem convert_keeps_instant (pytz_timezone : string -> option (Z -> Z))
    (timezone_str : string) (a b : Z) (da db : datetime) :
  Utils.convert_utc_to_local pytz_timezone (NaiveDatetime a) timezone_str = Ok da ->
  Utils.convert_utc_to_local pytz_timezone (NaiveDatetime b) timezone_str = Ok db ->
  dt_utc da = a
  /\ dt_wall da = a + dt_utcoffset da
  /\ dt_lt da db = (a <? b)
  /\ dt_ge da db = (b <=? a)
  /\ dt_sub db da = b - a.
Proof.
  unfold Utils.convert_utc_to_local. intros Ha Hb.
  destruct (pytz_timezone timezone_str) as [local_tz|]; [|discriminate].
  injection Ha as <-. injection Hb as <-.
  unfold dt_lt, dt_ge, dt_sub, dt_utc. cbn [dt_wall dt_utcoffset].
  repeat split; try lia; f_equal; lia.
Qed.

Lemma convert_keeps_instant_witness :
  let a := Examples.shift_at - 1 in
  let b := Examples.shift_at in
  exists da db : datetime,
    Utils.convert_utc_to_local Examples.pytz_shift (NaiveDatetime a) "Example/Shift"
    = Ok da
    /\ Utils.convert_utc_to_local Examples.pytz_shift (NaiveDatetime b) "Example/Shift"
       = Ok db
    /\ dt_utcoffset da <> dt_utcoffset db
    /\ dt_utc da = a
    /\ dt_wall da = a + dt_utcoffset da
    /\ dt_lt da db = (a <? b)
    /\ dt_ge da db = (b <=? a)
    /\ dt_sub db da = b - a.
Proof.
  eexists. eexists.
  split; [vm_compute; reflexivity|].
  split; [vm_compute; reflexivity|].
  split; [vm_compute; discriminate|].
  apply (convert_keeps_instant Examples.pytz_shift "Example/Shift"
           (Examples.shift_at - 1) Examples.shift_at);
    vm_compute; reflexivity.
Defined.

(** X5.  [get_previous_hour_times] returns a window of exactly one hour that
    ends at the start of the current minute: the end is a whole minute, is
    not after the clock reading and is less than a minute before it. *)
Theorem previous_hour_window (utcnow : Z) :
  let '(start_time, end_time) := Utils.get_previous_hour_times utcnow in
  end_time - start_time = timedelta_hours 1
  /\ end_time mod (60 * US_PER_SECOND) = 0
  /\ end_time <= utcnow < end_time + 60 * US_PER_SECOND.
Proof.
  unfold Utils.get_previous_hour_times, Utils.replace_second_microsecond.
  assert (Hmin : 60 * US_PER_SECOND = 60000000) by reflexivity.
  rewrite Hmin.
  pose proof (Z.mod_pos_bound utcnow 60000000 eq_refl) as Hr.
  split; [lia|]. split; [|lia].
  rewrite Zminus_mod_idemp_r, Z.sub_diag. reflexivity.
Qed.

(** X6.  [get_previous_day_times] and [get_previous_week_times] return
    windows of exactly one day and one week that end at the same instant,
    the midnight (UTC) that starts the current day; the day window is the
    last day of the week window. *)
Theorem previous_day_and_week_windows (utcnow : Z) :
  let '(day_start, day_end) := Utils.get_previous_day_times utcnow in
  let '(week_start, week_end) := Utils.get_previous_week_times utcnow in
  day_end - day_start = timedelta_days 1
  /\ week_end - week_start = timedelta_weeks 1
  /\ day_end = week_end
  /\ week_start < day_start
  /\ day_end mod US_PER_DAY = 0
  /\ day_start mod US_PER_DAY = 0
  /\ week_start mod US_PER_DAY = 0
  /\ day_end <= utcnow < day_end + US_PER_DAY.
Proof.
  unfold Utils.get_previous_day_times, Utils.get_previous_week_times,
    Utils.replace_hour_minute_second_microsecond, timedelta_days, timedelta_weeks.
  assert (Hday : US_PER_DAY = 86400000000) by reflexivity.
  rewrite Hday.
  pose proof (Z.mod_pos_bound utcnow 86400000000 eq_refl) as Hr.
  assert (Hmid : (utcnow - utcnow mod 86400000000) mod 86400000000 = 0).
  { rewrite Zminus_mod_idemp_r, Z.sub_diag. reflexivity. }
  repeat split; try lia; try exact Hmid.
  - replace (utcnow - utcnow mod 86400000000 - 1 * 86400000000)
      with (utcnow - utcnow mod 86400000000 + (-1) * 86400000000) by lia.
    rewrite Z_mod_plus_full. exact Hmid.
  - replace (utcnow - utcnow mod 86400000000 - 1 * 7 * 86400000000)
      with (utcnow - utcnow mod 86400000000 + (-7) * 86400000000) by lia.
    rewrite Z_mod_plus_full. exact Hmid.
Qed.

(** ** database.py: the queries *)

(** X7.  [fetch_store_timezone] falls back to "America/Chicago" exactly when
    [store_tz] has no row of the store; otherwise it returns the timezone of
    the store's first row. *)
Theorem fetch_store_timezone_spec (conn : database) (store_id : Z) :
  (Forall (fun row => tz_store_id row <> store_id) (store_tz conn)
   /\ fetch_store_timezone conn store_id = "America/Chicago")
  \/ exists (before after : list store_tz_row) (row : store_tz_row),
      store_tz conn = (before ++ row :: after)%list
      /\ Forall (fun row => tz_store_id row <> store_id) before
      /\ tz_store_id row = store_id
      /\ fetch_store_timezone conn store_id = tz_timezone row.
Proof.
  unfold fetch_store_timezone.
  induction (store_tz conn) as [|row rows IH].
  - left. split; [constructor|reflexivity].
  - rewrite filter_cons. destruct (decide (tz_store_id row = store_id)) as [Heq|Hne].
    + right. exists [], rows, row. repeat split; [constructor|exact Heq].
    + destruct IH as [[Hall Hdef] | (before & after & r & -> & Hbefore & Hr & Hres)].
      * left. split; [constructor; assumption|exact Hdef].
      * right. exists (row :: before), after, r.
        repeat split; [constructor; assumption|exact Hr|exact Hres].
Qed.


(** X9.  [fetch_store_ids] lists a store once per schedule row: as often as
    [menu_hours] has rows of the store, and not at all when it has none. *)
Theorem fetch_store_ids_count (conn : database) (store_id : Z) :
  length (filter (fun id => id = store_id) (fetch_store_ids conn))
  = length (filter (fun row => mh_store_id row = store_id) (menu_hours conn))
  /\ (In store_id (fetch_store_ids conn)
      <-> exists row, In row (menu_hours conn) /\ mh_store_id row = store_id).
Proof.
  unfold fetch_store_ids. split.
  - induction (menu_hours conn) as [|row rows IH]; [reflexivity|].
    cbn [map]. rewrite !filter_cons.
    destruct (decide (mh_store_id row = store_id)); cbn [length]; lia.
  - rewrite in_map_iff. split; intros (row & H1 & H2); exists row; tauto.
Qed.

(** X10.  The dictionary [fetch_store_hours] returns has no key but the
    store id, and holds under it the weekday number and the opening time of
    the store's last schedule row; the closing times are not in it. *)
Theorem fetch_store_hours_shape (conn : database) (store_id key : Z) :
  fetch_store_hours conn store_id !! key
  = if decide (key = store_id)
    then match last (filter (fun row => mh_store_id row = store_id)
                       (menu_hours conn)) with
         | Some row =>
             Some (PyInt (mh_dayofweek row), PyTime (mh_start_time_local row))
         | None => None
         end
    else None.
Proof.
  destruct (decide (key = store_id)) as [->|Hne].
  - apply fetch_store_hours_own_key.
  - apply fetch_store_hours_other_key. exact Hne.
Qed.



(** ** database.py: the estimator *)

Lemma hour_step_raises (pytz_timezone : string -> option (Z -> Z))
    (conn : database) (store_id start_time end_time : Z) (local_tz : Z -> Z)
    (c : counters) (hour_start_time : datetime) (e : exn) :
  pytz_timezone (fetch_store_timezone conn store_id) = Some local_tz ->
  hour_step pytz_timezone (fetch_store_timezone conn store_id)
    (fetch_store_data conn store_id start_time end_time)
    (fetch_store_hours conn store_id) c hour_start_time = Raise e ->
  (e = TypeError /\ 0 <= store_id <= 6)
  \/ (e = ValueError /\ fetch_store_data conn store_id start_time end_time <> []).
Proof.
  intros Hzone Hstep.
  assert (Hguard : forall e0,
             within_business_hours (fetch_store_hours conn store_id) hour_start_time
             = Raise e0 -> e0 = TypeError /\ 0 <= store_id <= 6).
  { intros e0 He0. split; [eapply within_raises_type_error; exact He0|].
    destruct (decide (0 <= store_id <= 6)) as [Hin|Hout]; [exact Hin|].
    rewrite within_fallback in He0
      by (apply fetch_store_hours_no_weekday; lia).
    discriminate. }
  destruct (fetch_store_data conn store_id start_time end_time) as [|data rest] eqn:Hdata.
  - left. unfold hour_step, hour_totals in Hstep.
    destruct (within_business_hours _ hour_start_time) as [[|]|e0] eqn:Hw;
      cbn [rbind for_each] in Hstep; try discriminate.
    injection Hstep as <-. apply Hguard. reflexivity.
  - rewrite hour_step_aware in Hstep;
      [|rewrite <- Hdata; apply fetch_store_data_aware|discriminate].
    destruct (within_business_hours _ hour_start_time) as [[|]|e0] eqn:Hw.
    + right. unfold localize_error in Hstep. rewrite Hzone in Hstep.
      injection Hstep as <-. split; [reflexivity|discriminate].
    + unfold hour_step, hour_totals in Hstep. rewrite Hw in Hstep.
      cbn [rbind] in Hstep. discriminate.
    + left. unfold hour_step, hour_totals in Hstep. rewrite Hw in Hstep.
      cbn [rbind] in Hstep. injection Hstep as <-. apply Hguard. reflexivity.
Qed.

(** X12.  How the estimator can end.  When pytz does not know the store's
    timezone it raises UnknownTimeZoneError, whatever the window and the
    data.  When pytz knows it, the estimator returns a row of six zeros for
    the store, or it raises TypeError, which can happen only to a store whose
    id is a weekday number, 0 to 6, or it raises ValueError, which can happen
    only when the window holds an observation of the store. *)
Theorem estimator_outcomes (pytz_timezone : string -> option (Z -> Z))
    (conn : database) (store_id start_time end_time : Z) :
  match pytz_timezone (fetch_store_timezone conn store_id) with
  | None =>
      calculate_uptime_downtime pytz_timezone conn store_id start_time end_time
      = Raise UnknownTimeZoneError
  | Some _ =>
      (exists r : report_row,
          calculate_uptime_downtime pytz_timezone conn store_id start_time end_time
          = Ok r /\ row_is r store_id 0 0 0 0 0 0)
      \/ (calculate_uptime_downtime pytz_timezone conn store_id start_time end_time
          = Raise TypeError /\ 0 <= store_id <= 6)
      \/ (calculate_uptime_downtime pytz_timezone conn store_id start_time end_time
          = Raise ValueError
          /\ fetch_store_data conn store_id start_time end_time <> [])
  end.
Proof.
  destruct (pytz_timezone (fetch_store_timezone conn store_id)) as [local_tz|] eqn:Hzone.
  - destruct (calculate_uptime_downtime pytz_timezone conn store_id start_time end_time)
      as [r|e] eqn:Hrun.
    + left. exists r. split; [reflexivity|]. eapply calculate_only_zeros. exact Hrun.
    + right. unfold calculate_uptime_downtime, Utils.convert_utc_to_local in Hrun.
      rewrite Hzone in Hrun. cbn [rbind] in Hrun.
      destruct (for_each _ _ _) as [c|e0] eqn:Hloop; cbn [rbind] in Hrun;
        [discriminate|].
      injection Hrun as <-.
      assert (Hcase : (e0 = TypeError /\ 0 <= store_id <= 6)
                      \/ (e0 = ValueError
                          /\ fetch_store_data conn store_id start_time end_time <> [])).
      { eapply (for_each_raises _ (fun e =>
                  (e = TypeError /\ 0 <= store_id <= 6)
                  \/ (e = ValueError
                      /\ fetch_store_data conn store_id start_time end_time <> [])));
          [|exact Hloop].
        intros s hs e1. apply hour_step_raises with (local_tz := local_tz).
        exact Hzone. }
      destruct Hcase as [[-> Hid] | [-> Hdata]]; [left|right]; split;
        reflexivity || assumption.
  - unfold calculate_uptime_downtime, Utils.convert_utc_to_local.
    rewrite Hzone. reflexivity.
Qed.

(** X13.  A window that ends at or before its start has no hour: for every
    store whose timezone pytz knows the estimator returns 0 six times, even
    for a store id that is a weekday number. *)
Theorem empty_window_counts_nothing (pytz_timezone : string -> option (Z -> Z))
    (conn : database) (store_id start_time end_time : Z) (local_tz : Z -> Z) :
  pytz_timezone (fetch_store_timezone conn store_id) = Some local_tz ->
  end_time <= start_time ->
  returns_row (calculate_uptime_downtime pytz_timezone conn store_id
                 start_time end_time) store_id 0 0 0 0 0 0.
Proof.
  intros Hzone Hle. unfold calculate_uptime_downtime, Utils.convert_utc_to_local.
  rewrite Hzone. cbn [rbind].
  rewrite time_range_nil
    by (unfold dt_utc; cbn [dt_wall dt_utcoffset]; lia).
  cbn [for_each rbind]. unfold returns_row, row_is. cbn.
  repeat split; reflexivity.
Qed.

Lemma empty_window_counts_nothing_witness :
  let nine := Examples.at_time (Examples.monday 0) 9 0 0 in
  returns_row (calculate_uptime_downtime Examples.pytz_utc
                 (Examples.scenario_db 0 0) 0 (nine + delta) nine) 0 0 0 0 0 0 0.
Proof.
  apply (empty_window_counts_nothing Examples.pytz_utc (Examples.scenario_db 0 0) 0
           (Examples.at_time (Examples.monday 0) 9 0 0 + delta)
           (Examples.at_time (Examples.monday 0) 9 0 0) Examples.utc_zone).
  - reflexivity.
  - vm_compute. discriminate.
Defined.

(** X14.  Every row the estimator returns holds 0 for all six outputs,
    whatever the observations are: an hour that would add minutes is a
    visited hour of a window that holds an observation, and such an hour ends
    the run with an exception at the localisation of the first observation. *)
Theorem estimator_returns_only_zeros (pytz_timezone : string -> option (Z -> Z))
    (conn : database) (store_id start_time end_time : Z) (r : report_row) :
  calculate_uptime_downtime pytz_timezone conn store_id start_time end_time = Ok r ->
  row_is r store_id 0 0 0 0 0 0.
Proof. apply calculate_only_zeros. Qed.

Lemma estimator_returns_only_zeros_witness :
  let start_time := Examples.at_time (Examples.monday 0) 23 0 0 in
  exists r : report_row,
    fetch_store_data Examples.tuesday_only_db 100 start_time (start_time + delta) <> []
    /\ calculate_uptime_downtime Examples.pytz_utc Examples.tuesday_only_db 100
         start_time (start_time + delta) = Ok r
    /\ row_is r 100 0 0 0 0 0 0.
Proof.
  eexists. split; [vm_compute; discriminate|].
  split; [vm_compute; reflexivity|].
  apply (estimator_returns_only_zeros Examples.pytz_utc Examples.tuesday_only_db 100
           (Examples.at_time (Examples.monday 0) 23 0 0)
           (Examples.at_time (Examples.monday 0) 23 0 0 + delta)).
  vm_compute. reflexivity.
Defined.

Lemma hour_loop_raises_at_visit (pytz_timezone : string -> option (Z -> Z))
    (store_timezone : string) (hours : gmap Z (pyval * pyval))
    (store_data : list (py_datetime * option string)) (walk : list datetime) :
  Forall aware store_data ->
  store_data <> [] ->
  (forall hs, In hs walk -> hours !! dt_weekday hs = None) ->
  (exists hs, In hs walk /\ within_business_hours hours hs = Ok true) ->
  forall c : counters,
    for_each (hour_step pytz_timezone store_timezone store_data hours) walk c
    = Raise (localize_error pytz_timezone store_timezone).
Proof.
  intros Haware Hne. induction walk as [|hs walk IH]; intros Hfall Hvisit c.
  - destruct Hvisit as (hs & [] & _).
  - cbn [for_each]. rewrite hour_step_aware by assumption.
    destruct (within_business_hours hours hs) as [[|]|e] eqn:Hw.
    + reflexivity.
    + destruct (hour_step_no_data_returns pytz_timezone store_timezone hours c hs)
        as [c' Hc']; [apply Hfall; left; reflexivity|].
      rewrite Hc'. cbn [rbind]. apply IH.
      * intros hs' Hin. apply Hfall. right. exact Hin.
      * destruct Hvisit as (hs' & [<-|Hin] & Hopen); [congruence|eauto].
    + rewrite within_fallback in Hw by (apply Hfall; left; reflexivity).
      discriminate.
Qed.

(** X15.  For a store whose timezone pytz knows and whose id is no weekday
    number, the estimator raises ValueError as soon as the window holds an
    observation of the store and the walk has a visited hour: the first
    visited hour localises the first observation, an aware datetime, before
    it tests whether the observation lies in the hour. *)
Theorem observation_and_visit_raise (pytz_timezone : string -> option (Z -> Z))
    (conn : database) (store_id start_time end_time : Z) (local_tz : Z -> Z)
    (hour_start_time : datetime) :
  pytz_timezone (fetch_store_timezone conn store_id) = Some local_tz ->
  store_id < 0 \/ 6 < store_id ->
  fetch_store_data conn store_id start_time end_time <> [] ->
  In hour_start_time
    (Utils.time_range
       (mk_datetime (start_time + local_tz start_time) (local_tz start_time))
       (mk_datetime (end_time + local_tz end_time) (local_tz end_time)) delta) ->
  within_business_hours (fetch_store_hours conn store_id) hour_start_time = Ok true ->
  calculate_uptime_downtime pytz_timezone conn store_id start_time end_time
  = Raise ValueError.
Proof.
  intros Hzone Hid Hdata Hin Hopen.
  unfold calculate_uptime_downtime, Utils.convert_utc_to_local.
  rewrite Hzone. cbn [rbind].
  rewrite hour_loop_raises_at_visit.
  - unfold localize_error. rewrite Hzone. reflexivity.
  - apply fetch_store_data_aware.
  - exact Hdata.
  - intros hs _. apply fetch_store_hours_no_weekday. exact Hid.
  - exists hour_start_time. split; assumption.
Qed.

Lemma observation_and_visit_raise_witness :
  let start_time := Examples.at_time (Examples.monday 0) 9 0 0 in
  calculate_uptime_downtime Examples.pytz_utc Examples.busy_db 100
    start_time (start_time + 2 * delta) = Raise ValueError.
Proof.
  apply (observation_and_visit_raise Examples.pytz_utc Examples.busy_db 100
           (Examples.at_time (Examples.monday 0) 9 0 0)
           (Examples.at_time (Examples.monday 0) 9 0 0 + 2 * delta)
           Examples.utc_zone
           (mk_datetime (Examples.at_time (Examples.monday 0) 10 0 0) 0)).
  - reflexivity.
  - right. reflexivity.
  - vm_compute. discriminate.
  - vm_compute. right. left. reflexivity.
  - vm_compute. reflexivity.
Defined.

(** X16.  The estimator does not depend on the order in which [store_data]
    holds its rows: on two databases with the same schedule and timezone
    tables whose observation tables are permutations of each other it gives
    the same result, the same row or the same exception. *)
Theorem estimator_ignores_row_order (pytz_timezone : string -> option (Z -> Z))
    (conn1 conn2 : database) (store_id start_time end_time : Z) :
  menu_hours conn1 = menu_hours conn2 ->
  store_tz conn1 = store_tz conn2 ->
  Permutation (store_data conn1) (store_data conn2) ->
  calculate_uptime_downtime pytz_timezone conn1 store_id start_time end_time
  = calculate_uptime_downtime pytz_timezone conn2 store_id start_time end_time.
Proof.
  intros Hmenu Htz Hperm.
  assert (Hdata : Permutation (fetch_store_data conn1 store_id start_time end_time)
                    (fetch_store_data conn2 store_id start_time end_time)).
  { unfold fetch_store_data. rewrite Hperm. reflexivity. }
  pose proof (fetch_store_data_aware conn1 store_id start_time end_time) as Haware1.
  pose proof (fetch_store_data_aware conn2 store_id start_time end_time) as Haware2.
  unfold calculate_uptime_downtime, fetch_store_timezone, fetch_store_hours.
  rewrite Hmenu, Htz.
  destruct (Utils.convert_utc_to_local _ (NaiveDatetime start_time) _)
    as [local_start_time|e]; cbn [rbind]; [|reflexivity].
  destruct (Utils.convert_utc_to_local _ (NaiveDatetime end_time) _)
    as [local_end_time|e]; cbn [rbind]; [|reflexivity].
  erewrite for_each_ext; [reflexivity|].
  intros c hs _.
  destruct (fetch_store_data conn1 store_id start_time end_time) as [|d1 l1] eqn:H1.
  - apply Permutation_nil_l in Hdata. rewrite <- Hdata. reflexivity.
  - destruct (fetch_store_data conn2 store_id start_time end_time) as [|d2 l2] eqn:H2.
    + apply Permutation_nil_r in Hdata. discriminate.
    + rewrite (hour_step_aware _ _ _ (d1 :: l1)) by (assumption || discriminate).
      rewrite (hour_step_aware _ _ _ (d2 :: l2)) by (assumption || discriminate).
      reflexivity.
Qed.

Lemma estimator_ignores_row_order_witness :
  let nine := Examples.at_time (Examples.monday 0) 9 0 0 in
  Permutation (store_data Examples.busy_db) (store_data Examples.busy_db_shuffled)
  /\ calculate_uptime_downtime Examples.pytz_utc Examples.busy_db 100
       nine (nine + 2 * delta)
     = calculate_uptime_downtime Examples.pytz_utc Examples.busy_db_shuffled 100
         nine (nine + 2 * delta).
Proof.
  assert (Hperm : Permutation (store_data Examples.busy_db)
                    (store_data Examples.busy_db_shuffled)).
  { cbn [store_data Examples.busy_db Examples.busy_db_shuffled].
    eapply perm_trans; [apply perm_skip, perm_swap|apply perm_swap]. }
  split; [exact Hperm|].
  apply (estimator_ignores_row_order Examples.pytz_utc Examples.busy_db
           Examples.busy_db_shuffled 100
           (Examples.at_time (Examples.monday 0) 9 0 0)
           (Examples.at_time (Examples.monday 0) 9 0 0 + 2 * delta)).
  - reflexivity.
  - reflexivity.
  - exact Hperm.
Defined.

(** X25.  For a store whose id is not a weekday number (below 0 or above 6)
    the rows of [menu_hours] have no influence on the estimate: two databases
    with the same observations and timezones give the same result whatever
    their schedules hold. *)
Theorem schedule_is_ignored (pytz_timezone : string -> option (Z -> Z))
    (conn1 conn2 : database) (store_id start_time end_time : Z) :
  store_id < 0 \/ 6 < store_id ->
  store_data conn1 = store_data conn2 ->
  store_tz conn1 = store_tz conn2 ->
  calculate_uptime_downtime pytz_timezone conn1 store_id start_time end_time
  = calculate_uptime_downtime pytz_timezone conn2 store_id start_time end_time.
Proof.
  intros Hid Hdata Htz.
  unfold calculate_uptime_downtime, fetch_store_timezone, fetch_store_data.
  rewrite Hdata, Htz.
  destruct (Utils.convert_utc_to_local _ (NaiveDatetime start_time) _) as [local_start_time|e];
    cbn [rbind]; [|reflexivity].
  destruct (Utils.convert_utc_to_local _ (NaiveDatetime end_time) _) as [local_end_time|e];
    cbn [rbind]; [|reflexivity].
  erewrite for_each_ext; [reflexivity|].
  intros c hs _. unfold hour_step, hour_totals.
  rewrite !within_fallback by (apply fetch_store_hours_no_weekday; exact Hid).
  reflexivity.
Qed.

Lemma schedule_is_ignored_witness :
  let start_time := Examples.at_time (Examples.monday 0) 20 0 0 in
  menu_hours Examples.evening_db <> menu_hours Examples.evening_db_other_schedule
  /\ calculate_uptime_downtime Examples.pytz_utc Examples.evening_db 100
       start_time (start_time + delta)
     = calculate_uptime_downtime Examples.pytz_utc Examples.evening_db_other_schedule
         100 start_time (start_time + delta).
Proof.
  split; [discriminate|].
  apply (schedule_is_ignored Examples.pytz_utc Examples.evening_db
           Examples.evening_db_other_schedule 100
           (Examples.at_time (Examples.monday 0) 20 0 0)
           (Examples.at_time (Examples.monday 0) 20 0 0 + delta)).
  - right. reflexivity.
  - reflexivity.
  - reflexivity.
Defined.


(** ** database.py: loading the CSV files *)

Lemma sql_eq_int_true (a b : option Z) :
  sql_eq_int a b = true <-> exists x, a = Some x /\ b = Some x.
Proof.
  destruct a as [x|], b as [y|]; cbn; split; try discriminate;
    try (intros (z & H1 & H2); discriminate).
  - intros H. apply Z.eqb_eq in H. subst. eauto.
  - intros (z & H1 & H2). injection H1 as ->. injection H2 as ->. apply Z.eqb_refl.
Qed.

Lemma sql_eq_text_true (a b : option string) :
  sql_eq_text a b = true <-> exists x, a = Some x /\ b = Some x.
Proof.
  destruct a as [x|], b as [y|]; cbn; split; try discriminate;
    try (intros (z & H1 & H2); discriminate).
  - intros H. apply String.eqb_eq in H. subst. eauto.
  - intros (z & H1 & H2). injection H1 as ->. injection H2 as ->. apply String.eqb_refl.
Qed.

(** The three comparisons hold exactly between a row without NULL and
    itself. *)
Lemma same_observation_spec (stored tmp : store_data_row) :
  same_observation stored tmp = true <-> stored = tmp /\ no_null tmp = true.
Proof.
  unfold same_observation, no_null.
  rewrite !andb_true_iff, !sql_eq_int_true, sql_eq_text_true.
  destruct stored as [i1 s1 t1], tmp as [i2 s2 t2].
  cbn [sd_store_id sd_status sd_timestamp_utc]. split.
  - intros [[(x & -> & ->) (y & -> & ->)] (z & -> & ->)]. split; reflexivity.
  - intros [Heq Hnn]. injection Heq as -> -> ->.
    destruct i2 as [x|], s2 as [z|], t2 as [y|]; try discriminate. eauto 10.
Qed.

Lemma already_stored_spec (table : list store_data_row) (tmp : store_data_row) :
  already_stored table tmp = true <-> In tmp table /\ no_null tmp = true.
Proof.
  unfold already_stored. rewrite existsb_exists. split.
  - intros (stored & Hin & Hsame). apply same_observation_spec in Hsame.
    destruct Hsame as [-> Hnn]. split; assumption.
  - intros [Hin Hnn]. exists tmp. split; [exact Hin|].
    apply same_observation_spec. split; [reflexivity|exact Hnn].
Qed.

Lemma already_stored_false (table : list store_data_row) (tmp : store_data_row) :
  already_stored table tmp = false <-> no_null tmp = false \/ ~ In tmp table.
Proof.
  pose proof (already_stored_spec table tmp) as [Hto Hfrom].
  destruct (already_stored table tmp) eqn:Hstored.
  - destruct (Hto eq_refl) as [Hin Hfull]. split; [discriminate|].
    intros [Hnull|Hout]; [congruence|contradiction].
  - split; [|reflexivity]. intros _.
    destruct (no_null tmp) eqn:Hfull; [|left; reflexivity].
    right. intros Hin. specialize (Hfrom (conj Hin eq_refl)). discriminate.
Qed.

(** X17.  [update_db] only appends to [store_data]: the rows the table held
    stay where they were, and [menu_hours], [store_tz] and [reports] are left
    alone.  The rows appended are exactly the rows of the file that the
    table did not hold or that have a NULL field (an empty CSV field), for a
    comparison with NULL is never true.  When the file cannot be opened
    nothing changes. *)
Theorem update_db_appends_new_rows (store_status_csv : option (list store_data_row))
    (conn : database) :
  menu_hours (update_db store_status_csv conn) = menu_hours conn
  /\ store_tz (update_db store_status_csv conn) = store_tz conn
  /\ reports (update_db store_status_csv conn) = reports conn
  /\ exists inserted : list store_data_row,
      store_data (update_db store_status_csv conn)
      = (store_data conn ++ inserted)%list
      /\ forall row : store_data_row,
          In row inserted
          <-> (exists rows, store_status_csv = Some rows /\ In row rows)
              /\ (no_null row = false \/ ~ In row (store_data conn)).
Proof.
  destruct store_status_csv as [rows|]; unfold update_db;
    cbn [store_data menu_hours store_tz reports].
  - do 3 (split; [reflexivity|]). eexists. split; [reflexivity|].
    intros row. rewrite <- list_elem_of_In, list_elem_of_filter, list_elem_of_In.
    rewrite already_stored_false. split.
    + intros [Hnew Hin]. split; [eauto|exact Hnew].
    + intros [(rows' & Hrows & Hin) Hnew]. injection Hrows as <-. tauto.
  - do 3 (split; [reflexivity|]). exists []. split; [rewrite app_nil_r; reflexivity|].
    intros row. split; [intros []|].
    intros [(rows & Hrows & _) _]. discriminate.
Qed.

Lemma second_load_inserts_incomplete (table rows : list store_data_row) :
  (forall row, In row rows -> no_null row = true -> In row table) ->
  filter (fun tmp => already_stored table tmp = false) rows
  = filter (fun tmp => no_null tmp = false) rows.
Proof.
  induction rows as [|row rows IH]; intros Hall; [reflexivity|].
  rewrite !filter_cons, IH by (intros r Hr; apply Hall; right; exact Hr).
  destruct (decide (already_stored table row = false)) as [Hnew|Hold],
           (decide (no_null row = false)) as [Hnull|Hfull]; try reflexivity.
  - exfalso. apply already_stored_false in Hnew. destruct Hnew as [Hn|Hn];
      [contradiction|].
    apply Hn, Hall; [left; reflexivity|]. destruct (no_null row); congruence.
  - exfalso. apply Hold. apply already_stored_false. left. exact Hnull.
Qed.

Lemma no_incomplete_row (rows : list store_data_row) :
  filter (fun tmp => no_null tmp = false) rows = []
  <-> Forall (fun row => no_null row = true) rows.
Proof.
  induction rows as [|row rows IH]; [split; [constructor|reflexivity]|].
  rewrite filter_cons. destruct (decide (no_null row = false)) as [Hnull|Hfull].
  - split; [discriminate|]. intros H. apply Forall_inv in H. congruence.
  - rewrite IH. split.
    + intros H. constructor; [destruct (no_null row); congruence|exact H].
    + intros H. apply Forall_inv_tail in H. exact H.
Qed.

(** X18.  Loading the same file a second time inserts nothing exactly when
    no row of the file has a NULL field: [update_db] is idempotent on files
    without empty fields, and a row with an empty field is appended again at
    every load. *)
Theorem update_db_idempotent (rows : list store_data_row) (conn : database) :
  update_db (Some rows) (update_db (Some rows) conn) = update_db (Some rows) conn
  <-> Forall (fun row => no_null row = true) rows.
Proof.
  rewrite <- no_incomplete_row.
  unfold update_db. cbn [store_data menu_hours store_tz reports].
  rewrite (second_load_inserts_incomplete (store_data conn ++ _) rows).
  - split.
    + intros Heq. injection Heq as Heq.
      rewrite <- (app_nil_r (store_data conn ++ _)) in Heq at 2.
      apply app_inv_head in Heq. exact Heq.
    + intros ->. rewrite app_nil_r. reflexivity.
  - intros row Hin Hfull. apply in_or_app.
    destruct (already_stored (store_data conn) row) eqn:Hold.
    + left. apply already_stored_spec in Hold. tauto.
    + right. apply list_elem_of_In, list_elem_of_filter. split; [exact Hold|].
      apply list_elem_of_In. exact Hin.
Qed.

(** X19.  [update_db] does not remove duplicates inside the file: a row that
    [store_data] does not hold is inserted as many times as the file
    repeats it. *)
Theorem update_db_keeps_file_duplicates (rows : list store_data_row)
    (conn : database) (row : store_data_row) :
  ~ In row (store_data conn) ->
  length (filter (fun stored => same_observation stored row = true)
            (store_data (update_db (Some rows) conn)))
  = length (filter (fun tmp => same_observation tmp row = true) rows).
Proof.
  intros Hnew. unfold update_db. cbn [store_data].
  rewrite filter_app, length_app.
  assert (Hold : filter (fun stored => same_observation stored row = true)
                   (store_data conn) = []).
  { induction (store_data conn) as [|x l IH]; [reflexivity|].
    rewrite filter_cons. destruct (decide _) as [Hsame|_].
    - apply same_observation_spec in Hsame. exfalso. apply Hnew. left. tauto.
    - apply IH. intros Hin. apply Hnew. right. exact Hin. }
  rewrite Hold. cbn [length Nat.add].
  induction rows as [|x rows IH]; [reflexivity|].
  rewrite !filter_cons.
  destruct (decide (already_stored (store_data conn) x = false)) as [Hfresh|Hstored].
  - rewrite filter_cons. destruct (decide (same_observation x row = true));
      cbn [length]; rewrite IH; reflexivity.
  - destruct (decide (same_observation x row = true)) as [Hsame|_]; [|exact IH].
    apply same_observation_spec in Hsame. destruct Hsame as [-> _].
    exfalso. apply Hstored. apply already_stored_false. right. exact Hnew.
Qed.

Lemma update_db_keeps_file_duplicates_witness :
  let row := Examples.observation 100 "active"
               (Examples.at_time (Examples.monday 0) 9 30 0) in
  ~ In row (store_data Examples.busy_db)
  /\ length (filter (fun stored => same_observation stored row = true)
               (store_data (update_db (Some [row; row]) Examples.busy_db))) = 2%nat.
Proof.
  assert (Hnew : ~ In (Examples.observation 100 "active"
                         (Examples.at_time (Examples.monday 0) 9 30 0))
                   (store_data Examples.busy_db)).
  { intros Hin.
    assert (Hstored : already_stored (store_data Examples.busy_db)
                        (Examples.observation 100 "active"
                           (Examples.at_time (Examples.monday 0) 9 30 0)) = true)
      by (apply already_stored_spec; split; [exact Hin|reflexivity]).
    vm_compute in Hstored. discriminate. }
  split; [exact Hnew|].
  apply (update_db_keeps_file_duplicates
           [Examples.observation 100 "active"
              (Examples.at_time (Examples.monday 0) 9 30 0);
            Examples.observation 100 "active"
              (Examples.at_time (Examples.monday 0) 9 30 0)]
           Examples.busy_db
           (Examples.observation 100 "active"
              (Examples.at_time (Examples.monday 0) 9 30 0))
           Hnew).
Defined.

(** X20.  [init_db] never loads a file.  The three existence checks read a
    one-column row, (0,) or (1,), which Python takes for true either way, so
    the function returns at "Database already initialized" for every state
    of the tables, all empty included, and every content of the files. *)
Theorem init_db_loads_nothing (menu_hours_csv : option (list menu_hours_row))
    (bq_csv : option (list store_tz_row))
    (store_status_csv : option (list store_data_row)) (conn : database) :
  init_db menu_hours_csv bq_csv store_status_csv conn = conn.
Proof.
  unfold init_db.
  assert (Htruth : forall (A : Type) (table : list A),
             tuple_truth (fetchone_exists table) = true)
    by (intros A [|x l]; reflexivity).
  rewrite !Htruth. reflexivity.
Qed.

(** ** Report generation and the job table *)

(** X21.  Whatever its outcome, [generate_report] leaves [store_data],
    [menu_hours] and [store_tz] as they were, adds no row to [reports] and
    removes none, changes the status of no other report id, and deletes no
    file. *)
Theorem generate_report_keeps_data (pytz_timezone : string -> option (Z -> Z))
    (clock : nat -> Z) (strftime : Z -> string) (can_open : string -> bool)
    (w : world) (report_id : string) :
  let w' := snd (generate_report pytz_timezone clock strftime can_open w report_id) in
  store_data (w_conn w') = store_data (w_conn w)
  /\ menu_hours (w_conn w') = menu_hours (w_conn w)
  /\ store_tz (w_conn w') = store_tz (w_conn w)
  /\ map rp_report_id (reports (w_conn w')) = map rp_report_id (reports (w_conn w))
  /\ (forall other : string,
         other <> report_id ->
         Report.get_report_status (w_conn w') other
         = Report.get_report_status (w_conn w) other)
  /\ (forall path : string,
         is_Some (w_files w !! path) -> is_Some (w_files w' !! path)).
Proof.
  unfold generate_report.
  destruct (report_loop _ _ _ _ _ _) as [[rows|e] t].
  - destruct (can_open _); cbn [snd w_conn w_files set_reports store_data menu_hours
                                  store_tz reports].
    + do 3 (split; [reflexivity|]). split; [apply update_report_status_ids|].
      split.
      * intros other Hne. unfold Report.get_report_status.
        cbn [reports set_reports].
        rewrite filter_update_other by exact Hne. reflexivity.
      * intros path Hsome. rewrite lookup_insert.
        destruct (decide _); [eexists; reflexivity|exact Hsome].
    + repeat split; auto.
  - cbn [snd w_conn w_files]. repeat split; auto.
Qed.

(** X22.  [generate_report] run for a report id that [reports] does not hold
    updates no row: the table is as before, and a caller asking for that id
    is answered "Report not found" even when the report file was written. *)
Theorem generate_report_unknown_id (pytz_timezone : string -> option (Z -> Z))
    (clock : nat -> Z) (strftime : Z -> string) (can_open : string -> bool)
    (w : world) (report_id : string) :
  Report.get_report_status (w_conn w) report_id = None ->
  let w' := snd (generate_report pytz_timezone clock strftime can_open w report_id) in
  reports (w_conn w') = reports (w_conn w)
  /\ Routes.get_report (w_conn w') report_id = Routes.NotFound.
Proof.
  intros Hnone w'.
  assert (Hsame : reports (w_conn w') = reports (w_conn w)).
  { subst w'. unfold generate_report.
    destruct (report_loop _ _ _ _ _ _) as [[rows|e] t]; [|reflexivity].
    destruct (can_open _); [|reflexivity].
    cbn [snd w_conn set_reports reports].
    apply update_report_status_no_match, status_none_filter. exact Hnone. }
  split; [exact Hsame|].
  unfold Routes.get_report, Report.get_report_status in *. rewrite Hsame.
  destruct (filter _ (reports (w_conn w))); [reflexivity|discriminate].
Qed.

Lemma generate_report_unknown_id_witness :
  let w := Examples.world_of Examples.silent_db in
  let w' := snd (generate_report Examples.pytz_utc Examples.clock Examples.strftime
                   Examples.can_open w "job-9") in
  is_Some (w_files w' !! "reports/report_19700112_100000.csv")
  /\ reports (w_conn w') = reports (w_conn w)
  /\ Routes.get_report (w_conn w') "job-9" = Routes.NotFound.
Proof.
  split; [vm_compute; eexists; reflexivity|].
  apply (generate_report_unknown_id Examples.pytz_utc Examples.clock
           Examples.strftime Examples.can_open
           (Examples.world_of Examples.silent_db) "job-9").
  reflexivity.
Defined.

(** X23.  A job triggered under a fresh id whose report generation returns
    ends in a state that refers to its artifact: a caller polling the id is
    sent the file at the report path, that file was written with the fixed
    header, and it holds one row per row of [menu_hours]. *)
Theorem completed_job_has_its_file (pytz_timezone : string -> option (Z -> Z))
    (clock : nat -> Z) (strftime : Z -> string) (can_open : string -> bool)
    (w w' : world) (report_id : string) :
  Report.get_report_status (w_conn w) report_id = None ->
  Report.generate_report pytz_timezone clock strftime can_open w report_id
  = (Ok tt, w') ->
  exists (path : string) (rows : list report_row),
    Routes.get_report (w_conn w') report_id = Routes.FileResponse path
    /\ w_files w' !! path
       = Some (["store_id"; "uptime_last_hour"; "downtime_last_hour";
                "uptime_last_day"; "downtime_last_day"; "uptime_last_week";
                "downtime_last_week"], rows)
    /\ length rows = length (menu_hours (w_conn w)).
Proof.
  intros Hfresh Hrun.
  destruct (job_success pytz_timezone clock strftime can_open w w' report_id
              Hfresh Hrun) as (rows & _ & Hlen & Hstatus & Hfiles & _).
  eexists _, rows. split; [|split; [|exact Hlen]].
  - unfold Routes.get_report. rewrite Hstatus.
    destruct (report_path_response strftime
                (clock (w_ticks w + 2 * length (menu_hours (w_conn w)))%nat))
      as [-> ->].
    reflexivity.
  - rewrite Hfiles. apply lookup_insert_eq.
Qed.

Lemma completed_job_has_its_file_witness :
  let w := Examples.world_of Examples.silent_db in
  let run := Report.generate_report Examples.pytz_utc Examples.clock
               Examples.strftime Examples.can_open w "job-1" in
  fst run = Ok tt
  /\ exists (path : string) (rows : list report_row),
      Routes.get_report (w_conn (snd run)) "job-1" = Routes.FileResponse path
      /\ w_files (snd run) !! path
         = Some (["store_id"; "uptime_last_hour"; "downtime_last_hour";
                  "uptime_last_day"; "downtime_last_day"; "uptime_last_week";
                  "downtime_last_week"], rows)
      /\ length rows = length (menu_hours (w_conn w)).
Proof.
  split; [vm_compute; reflexivity|].
  apply (completed_job_has_its_file Examples.pytz_utc Examples.clock
           Examples.strftime Examples.can_open
           (Examples.world_of Examples.silent_db) _ "job-1").
  - reflexivity.
  - vm_compute. reflexivity.
Defined.

(** X24.  Report files are named by the second.  When two jobs, each under a
    fresh id, complete one after the other and the clock reads the same
    stamp for both, they share one path: the second job overwrites the file
    of the first, and polling either id leads to the rows of the second. *)
Theorem jobs_in_the_same_second_share_a_file
    (pytz_timezone : string -> option (Z -> Z)) (clock : nat -> Z)
    (strftime : Z -> string) (can_open : string -> bool)
    (w w1 w2 : world) (first second : string) :
  Report.get_report_status (w_conn w) first = None ->
  Report.generate_report pytz_timezone clock strftime can_open w first = (Ok tt, w1) ->
  Report.get_report_status (w_conn w1) second = None ->
  Report.generate_report pytz_timezone clock strftime can_open w1 second = (Ok tt, w2) ->
  strftime (clock (w_ticks w + 2 * length (menu_hours (w_conn w)))%nat)
  = strftime (clock (w_ticks w1 + 2 * length (menu_hours (w_conn w)))%nat) ->
  exists (path : string) (rows2 : list report_row) (ticks2 : nat),
    Report.get_report_status (w_conn w2) first = Some path
    /\ Report.get_report_status (w_conn w2) second = Some path
    /\ report_loop pytz_timezone clock (w_conn w1) (fetch_store_ids (w_conn w1))
         (w_ticks w1) [] = (Ok rows2, ticks2)
    /\ w_files w2 !! path = Some (fieldnames, rows2).
Proof.
  intros Hfresh1 Hrun1 Hfresh2 Hrun2 Hstamp.
  destruct (job_success pytz_timezone clock strftime can_open w w1 first
              Hfresh1 Hrun1) as (rows1 & _ & _ & Hstatus1 & _ & _ & _ & Hmenu & _).
  destruct (job_success pytz_timezone clock strftime can_open w1 w2 second
              Hfresh2 Hrun2) as (rows2 & Hloop2 & _ & Hstatus2 & Hfiles2 & _).
  rewrite Hmenu in Hstatus2, Hfiles2, Hloop2.
  assert (Hne : first <> second) by congruence.
  assert (Hkeep : Report.get_report_status (w_conn w2) first
                  = Report.get_report_status (w_conn w1) first).
  { pose proof (job_leaves_other_ids pytz_timezone clock strftime can_open
                  w1 first second Hne) as Hother.
    rewrite Hrun2 in Hother. exact Hother. }
  unfold report_path in *. rewrite <- Hstamp in Hstatus2, Hfiles2.
  eexists _, rows2, _. split; [rewrite Hkeep; exact Hstatus1|].
  split; [exact Hstatus2|]. split; [exact Hloop2|].
  rewrite Hfiles2. apply lookup_insert_eq.
Qed.

Lemma jobs_in_the_same_second_share_a_file_witness :
  let w := Examples.world_of Examples.silent_db in
  let run1 := Report.generate_report Examples.pytz_utc Examples.clock
                Examples.strftime Examples.can_open w "job-1" in
  let run2 := Report.generate_report Examples.pytz_utc Examples.clock
                Examples.strftime Examples.can_open (snd run1) "job-2" in
  fst run1 = Ok tt /\ fst run2 = Ok tt
  /\ exists (path : string) (rows2 : list report_row) (ticks2 : nat),
      Report.get_report_status (w_conn (snd run2)) "job-1" = Some path
      /\ Report.get_report_status (w_conn (snd run2)) "job-2" = Some path
      /\ report_loop Examples.pytz_utc Examples.clock (w_conn (snd run1))
           (fetch_store_ids (w_conn (snd run1))) (w_ticks (snd run1)) []
         = (Ok rows2, ticks2)
      /\ w_files (snd run2) !! path = Some (fieldnames, rows2).
Proof.
  split; [vm_compute; reflexivity|].
  split; [vm_compute; reflexivity|].
  apply (jobs_in_the_same_second_share_a_file Examples.pytz_utc Examples.clock
           Examples.strftime Examples.can_open
           (Examples.world_of Examples.silent_db) _ _ "job-1" "job-2").
  - reflexivity.
  - vm_compute. reflexivity.
  - vm_compute. reflexivity.
  - vm_compute. reflexivity.
  - reflexivity.
Defined.

(** ** The rows of a report *)

(** ** The rows of a report *)
Lemma calculate_store_id (pytz_timezone : string -> option (Z -> Z))
    (conn : database) (sid start_time end_time : Z) (r : report_row) :
  calculate_uptime_downtime pytz_timezone conn sid start_time end_time = Ok r ->
  store_id r = sid.
Proof.
  unfold calculate_uptime_downtime. intros Hrun.
  destruct (Utils.convert_utc_to_local _ (NaiveDatetime start_time) _); cbn [rbind] in Hrun;
    [|discriminate].
  destruct (Utils.convert_utc_to_local _ (NaiveDatetime end_time) _); cbn [rbind] in Hrun;
    [|discriminate].
  destruct (for_each _ _ _); cbn [rbind] in Hrun; [|discriminate].
  injection Hrun as <-. reflexivity.
Qed.

Lemma report_loop_ids (pytz_timezone : string -> option (Z -> Z)) (clock : nat -> Z)
    (conn : database) (stores : list Z) :
  forall (ticks : nat) (report_data rows : list report_row) (ticks' : nat),
    report_loop pytz_timezone clock conn stores ticks report_data = (Ok rows, ticks') ->
    map store_id rows = (map store_id report_data ++ stores)%list.
Proof.
  induction stores as [|s stores IH]; intros ticks report_data rows ticks' Hrun.
  - cbn in Hrun. injection Hrun as <- _. rewrite app_nil_r. reflexivity.
  - cbn [report_loop] in Hrun.
    destruct (calculate_uptime_downtime _ _ s _ _) as [row|e] eqn:Hcalc; [|discriminate].
    apply IH in Hrun. rewrite Hrun, map_app, <- app_assoc. cbn [map app].
    rewrite (calculate_store_id _ _ _ _ _ _ Hcalc). reflexivity.
Qed.

(** X26.  A report that is written lists the stores as [menu_hours] lists
    them: the store ids of its rows are, in order, the store ids of the rows
    of [menu_hours], so a store with several schedule rows has as many report
    rows and a store without a schedule row has none. *)
Theorem report_rows_follow_menu_hours (pytz_timezone : string -> option (Z -> Z))
    (clock : nat -> Z) (strftime : Z -> string) (can_open : string -> bool)
    (w w' : world) (report_id : string) :
  generate_report pytz_timezone clock strftime can_open w report_id = (Ok tt, w') ->
  exists (path : string) (rows : list report_row),
    w_files w' !! path = Some (fieldnames, rows)
    /\ map store_id rows = map mh_store_id (menu_hours (w_conn w)).
Proof.
  intros Hrun. apply generate_report_success in Hrun. cbv zeta in Hrun.
  destruct Hrun as (rows & Hloop & _ & ->).
  eexists _, rows. cbn [w_files]. split; [apply lookup_insert_eq|].
  apply report_loop_ids in Hloop. exact Hloop.
Qed.

Lemma report_rows_follow_menu_hours_witness :
  let w := Examples.world_of Examples.silent_db in
  let run := generate_report Examples.pytz_utc Examples.clock Examples.strftime
               Examples.can_open w "job-1" in
  fst run = Ok tt
  /\ exists (path : string) (rows : list report_row),
      w_files (snd run) !! path = Some (fieldnames, rows)
      /\ map store_id rows = [300; 500].
Proof.
  split; [vm_compute; reflexivity|].
  apply (report_rows_follow_menu_hours Examples.pytz_utc Examples.clock
           Examples.strftime Examples.can_open
           (Examples.world_of Examples.silent_db) _ "job-1").
  vm_compute. reflexivity.
Defined.

(** X27.  When the report file cannot be opened, a job triggered under a
    fresh id raises, after every store has been computed or at the first
    store that raises; no file is written and the job's status remains
    "Running". *)
Theorem unwritable_report_leaves_job_running
    (pytz_timezone : string -> option (Z -> Z)) (clock : nat -> Z)
    (strftime : Z -> string) (can_open : string -> bool)
    (w : world) (report_id : string) :
  (forall path : string, can_open path = false) ->
  Report.get_report_status (w_conn w) report_id = None ->
  let run := Report.generate_report pytz_timezone clock strftime can_open
               w report_id in
  (exists e : exn, fst run = Raise e)
  /\ w_files (snd run) = w_files w
  /\ Routes.get_report (w_conn (snd run)) report_id = Routes.Running.
Proof.
  intros Hclosed Hfresh run.
  pose proof (fresh_job_status pytz_timezone clock strftime can_open w report_id
                Hfresh) as Hend.
  cbv zeta in Hend. fold run in Hend.
  assert (Hraise : (exists e : exn, fst run = Raise e)
                   /\ w_files (snd run) = w_files w).
  { subst run. unfold Report.generate_report, generate_report.
    cbn [w_conn w_files w_ticks].
    destruct (report_loop _ _ _ _ _ _) as [[rows|e] t].
    - rewrite Hclosed. cbn. eauto.
    - cbn. eauto. }
  destruct Hraise as [[e He] Hfiles].
  split; [eauto|]. split; [exact Hfiles|].
  rewrite He in Hend. unfold Routes.get_report. rewrite Hend. reflexivity.
Qed.

Lemma unwritable_report_leaves_job_running_witness :
  let w := Examples.world_of Examples.silent_db in
  let run := Report.generate_report Examples.pytz_utc Examples.clock
               Examples.strftime Examples.cannot_open w "job-1" in
  fst run = Raise OSError
  /\ (exists e : exn, fst run = Raise e)
  /\ w_files (snd run) = w_files w
  /\ Routes.get_report (w_conn (snd run)) "job-1" = Routes.Running.
Proof.
  split; [vm_compute; reflexivity|].
  apply (unwritable_report_leaves_job_running Examples.pytz_utc Examples.clock
           Examples.strftime Examples.cannot_open
           (Examples.world_of Examples.silent_db) "job-1").
  - intros path. reflexivity.
  - reflexivity.
Defined.
